(** * demoinvest: the [/analyze] request handler of [app.py]

    A shallow embedding of the Flask handler [analyze] (download, upload,
    inference, decode, defaulting, cleanup) together with the Python
    semantics it relies on: exceptions, [try]/[except]/[finally], the
    [in] operator, item assignment and truthiness.

    The third-party services (yt-dlp, Cloud Storage, Vertex AI) and the
    operating system are not part of the program; their answers are
    supplied by an environment record [Env], and their visible effects
    are recorded in a [World] (local files, bucket objects, and the trace
    of calls and log lines). *)

From stdpp Require Import base option list strings gmap.
From Stdlib Require Import ZArith QArith Ascii String.

Local Set Warnings "-register-all".
Local Open Scope Z_scope.

(** ** Python values *)

Module Py.

(** What [json.loads] can return.  A [float] is carried as its IEEE-754
    binary64 bit pattern; the handler never computes with one. *)
Inductive pyval : Type :=
  | PNone
  | PBool (b : bool)
  | PInt (z : Z)
  | PFloat (bits : Z)
  | PStr (s : string)
  | PList (l : list pyval)
  | PDict (m : gmap string pyval).

(** An exception object: its class name and what [str(e)] gives. *)
Record exn : Type := Exn { exn_class : string; exn_str : string }.

(** The outcome of evaluating an expression or running a block. *)
Inductive outcome (A : Type) : Type :=
  | Returned (a : A)
  | Raised (e : exn).
Arguments Returned {A} a.
Arguments Raised {A} e.

Definition TypeError (msg : string) : exn := Exn "TypeError" msg.
Definition NameError (name : string) : exn :=
  Exn "NameError" ("name '" +:+ name +:+ "' is not defined").

(** [type(v).__name__] *)
Definition type_name (v : pyval) : string :=
  match v with
  | PNone => "NoneType"
  | PBool _ => "bool"
  | PInt _ => "int"
  | PFloat _ => "float"
  | PStr _ => "str"
  | PList _ => "list"
  | PDict _ => "dict"
  end.

(** [needle in hay] on two [str] values: substring test. *)
Fixpoint is_substring (needle hay : string) : bool :=
  String.prefix needle hay ||
  match hay with
  | EmptyString => false
  | String _ rest => is_substring needle rest
  end.

(** [k == v] for a [str] [k]: only an equal [str] compares equal. *)
Definition str_equals (k : string) (v : pyval) : bool :=
  match v with
  | PStr s => bool_decide (k = s)
  | _ => false
  end.

(** [k in v] for a [str] key [k]. *)
Definition contains (k : string) (v : pyval) : outcome bool :=
  match v with
  | PDict m => Returned (bool_decide (is_Some (m !! k)))
  | PList l => Returned (existsb (str_equals k) l)
  | PStr s => Returned (is_substring k s)
  | _ => Raised (TypeError ("argument of type '" +:+ type_name v +:+ "' is not iterable"))
  end.

(** [v[k] = x] for a [str] key [k]. *)
Definition setitem (v : pyval) (k : string) (x : pyval) : outcome pyval :=
  match v with
  | PDict m => Returned (PDict (<[k := x]> m))
  | PList _ => Raised (TypeError "list indices must be integers or slices, not str")
  | _ => Raised (TypeError ("'" +:+ type_name v +:+ "' object does not support item assignment"))
  end.

(** Branching on the truthiness of a variable that holds [None] or a
    [str]: [None] and the empty string are false. *)
Definition if_truthy {A : Type} (v : option string) (then_ : string -> A) (else_ : A) : A :=
  match v with
  | None => else_
  | Some s => if bool_decide (s = "") then else_ else then_ s
  end.

(** [str(v)] inside an f-string, for a variable that holds [None] or a [str]. *)
Definition fmt (v : option string) : string :=
  match v with
  | None => "None"
  | Some s => s
  end.

End Py.
Import Py.

(** ** The result defaulting of [analyze] (app.py, lines 175-179) *)

Definition DEFAULT_MENTIONED_RISK : pyval := PStr "언급된 리스크 없음".
Definition DEFAULT_CREDIBILITY_SCORE : pyval := PInt 5.

(** [if key not in results_data: results_data[key] = default] *)
Definition default_field (key : string) (default : pyval) (results_data : pyval)
  : outcome pyval :=
  match contains key results_data with
  | Raised e => Raised e
  | Returned true => Returned results_data
  | Returned false => setitem results_data key default
  end.

(** The two defaulting statements in sequence. *)
Definition normalize_results (results_data : pyval) : outcome pyval :=
  match default_field "mentioned_risk" DEFAULT_MENTIONED_RISK results_data with
  | Raised e => Raised e
  | Returned results_data' =>
      default_field "credibility_score" DEFAULT_CREDIBILITY_SCORE results_data'
  end.

(** The same two statements read on a mapping, where neither can raise. *)
Definition default_key (key : string) (default : pyval) (m : gmap string pyval)
  : gmap string pyval :=
  if bool_decide (is_Some (m !! key)) then m else <[key := default]> m.

Definition normalize_dict (m : gmap string pyval) : gmap string pyval :=
  default_key "credibility_score" DEFAULT_CREDIBILITY_SCORE
    (default_key "mentioned_risk" DEFAULT_MENTIONED_RISK m).

(** ** The prompt, the response schema and the generation config
    (app.py, lines 48-92) *)

Definition GEMINI_MODEL_ID : string := "gemini-2.5-pro".

Definition video_extraction_prompt : string := "
당신은 당신의 전재산을 투자해야 하는 전문 투자 분석가(Expert Investor)입니다. 
이 주식 방송 영상을 극도로 신중하고 비판적인 시각으로 분석하세요. 
이것은 가벼운 추천이 아니며, 당신의 모든 것을 걸고 투자할지 말지를 결정해야 합니다.

다음 항목에 대해 영상 속 정보만을 기반으로 상세히 분석하세요:

1.  **분석 대상 종목 (Stock Name)**: 
    영상에서 주로 다루는 주식 종목명.
2.  **핵심 투자 논리 (Investment Thesis)**: 
    영상 속 전문가가 '매수' 또는 '매도'를 추천하는 가장 강력한 근거 (예: 실적 개선, 신기술, 차트 패턴, 수급 등).
3.  **주요 리스크 및 반론 (Key Risks & Counter-argument)**: 
    영상에서 언급된 잠재적 위험 요인 또는 투자 논리에 대한 반론. 만약 위험 요인이 전혀 언급되지 않았다면, '언급된 리스크 없음'으로 명시하세요.
4.  **신뢰도 평가 (Credibility Score)**: 
    발표자의 주장이 객관적인 데이터(재무제표, 통계, 공시)에 기반했는지, 아니면 주관적인 예측이나 감정에 치우쳤는지 10점 만점으로 평가하세요. (1점: 매우 주관적, 10점: 매우 객관적)
5.  **최종 결정 (Final Decision)**: 
    당신의 '전재산'을 건다고 가정할 때, 이 종목을 당장 '매수'할지, '매도'할지, 아니면 '관망'(Wait & See)할지 결정하세요.
6.  **결정 사유 (Reason for Decision)**: 
    위 5번 결정에 대한 명확하고 간결한 이유를 3줄 이내로 요약하세요. (예: '리스크 대비 기대수익이 낮아 관망함', '명확한 실적 근거가 제시되어 매수함')

오직 영상 속 정보에만 기반하여 응답해야 하며, 외부 지식을 사용하지 마세요.
".

Inductive schema_type : Type := OBJECT | STRING | NUMBER.

(** One entry of ["properties"]: its ["type"] and, when given, its ["enum"]. *)
Record property_schema : Type := Property {
  prop_type : schema_type;
  prop_enum : option (list string)
}.

Record object_schema : Type := Schema {
  schema_kind : schema_type;
  schema_properties : list (string * property_schema);
  schema_required : list string
}.

Definition video_extraction_response_schema : object_schema := {|
  schema_kind := OBJECT;
  schema_properties := [
    ("stock_name", Property STRING None);
    ("investment_thesis", Property STRING None);
    ("mentioned_risk", Property STRING None);
    ("credibility_score", Property NUMBER None);
    ("final_decision", Property STRING (Some ["매수"; "매도"; "관망"]));
    ("decision_reason", Property STRING None)
  ];
  schema_required :=
    ["stock_name"; "investment_thesis"; "final_decision"; "decision_reason"]
|}.

Record GenerationConfig : Type := {
  temperature : Q;
  max_output_tokens : Z;
  response_mime_type : string;
  response_schema : object_schema
}.

Definition video_extraction_json_generation_config : GenerationConfig := {|
  temperature := 0%Q;
  max_output_tokens := 8192;
  response_mime_type := "application/json";
  response_schema := video_extraction_response_schema
|}.

(** What the structured-output mode of the model promises about a
    document produced under an [object_schema]: an object whose declared
    properties, when present, have the declared type and lie in the
    declared enumeration, and whose required properties are present. *)
Definition has_type (t : schema_type) (v : pyval) : bool :=
  match t, v with
  | OBJECT, PDict _ => true
  | STRING, PStr _ => true
  | NUMBER, PInt _ => true
  | NUMBER, PFloat _ => true
  | _, _ => false
  end.

Definition in_enum (enum : option (list string)) (v : pyval) : bool :=
  match enum with
  | None => true
  | Some allowed => existsb (fun a => str_equals a v) allowed
  end.

Definition property_ok (m : gmap string pyval) (p : string * property_schema) : bool :=
  match m !! p.1 with
  | None => true
  | Some v => has_type (prop_type p.2) v && in_enum (prop_enum p.2) v
  end.

Definition conforms (s : object_schema) (v : pyval) : bool :=
  match v with
  | PDict m =>
      forallb (property_ok m) (schema_properties s)
      && forallb (fun k => bool_decide (is_Some (m !! k))) (schema_required s)
  | _ => false
  end.

(** ** The world outside the handler *)

Inductive LogLevel : Type := INFO | WARNING | ERROR.

Record YdlOpts : Type := {
  format : string;
  outtmpl : string;
  quiet : bool
}.

(** [Part.from_uri(uri=..., mime_type=...)] *)
Record Part : Type := { uri : string; mime_type : string }.

(** Calls that leave the process, and log lines, in the order they happen. *)
Inductive Event : Type :=
  | Log (level : LogLevel) (msg : string)
  | YdlDownload (opts : YdlOpts) (url : string)
  | UploadFromFilename (blob_name filename : string)
  | GenerateContent (prompt : string) (video : Part) (config : GenerationConfig)
  | OsRemove (path : string)
  | BlobExists (blob_name : string)
  | BlobDelete (blob_name : string).

Record World : Type := {
  fs : gset string;          (* paths of the files on the local disk *)
  gcs : gset string;         (* names of the objects in the bucket *)
  trace : list Event
}.

(** The response object of [model.generate_content]; reading [.text] can raise. *)
Record GenerationResponse : Type := { text : outcome string }.

(** Process configuration, the state left by the module's start-up block
    (app.py, lines 23-46) and the answers of everything the handler calls
    but does not define. *)
Record Env : Type := {
  GCS_BUCKET_NAME : option string;
  (* whether the start-up [try] got as far as binding the global *)
  bucket_bound : bool;
  model_bound : bool;
  gettempdir : string;
  (* [str(uuid.uuid4())] *)
  uuid4 : string;
  (* [ydl.download([url])]: whether a file now sits at [outtmpl], and the
     exception raised, if any *)
  ydl_download : YdlOpts -> string -> bool * option exn;
  (* [blob.upload_from_filename(path)]: whether the object now exists, and
     the exception raised, if any *)
  upload_from_filename : string -> string -> bool * option exn;
  generate_content : string -> Part -> GenerationConfig -> outcome GenerationResponse;
  json_loads : string -> outcome pyval;
  (* faults of the deleting calls other than the target being absent *)
  os_remove_fault : string -> option exn;
  blob_exists_fault : string -> option exn;
  blob_delete_fault : string -> option exn
}.

(** [posixpath.join(a, b)] *)
Fixpoint ends_with_sep (s : string) : bool :=
  match s with
  | EmptyString => false
  | String c EmptyString => bool_decide (c = "/"%char)
  | String _ rest => ends_with_sep rest
  end.

Definition path_join (a b : string) : string :=
  if String.prefix "/" b then b
  else if bool_decide (a = "") || ends_with_sep a then a +:+ b
  else a +:+ "/" +:+ b.

(** ** Blocks of statements: state and exceptions *)

(** The three variables [analyze] sets to [None] before its [try], which
    its [finally] reads back. *)
Record Locals : Type := {
  local_video_path : option string;
  gcs_blob_name : option string;
  gcs_uri : option string
}.

Record Machine : Type := { vars : Locals; world : World }.

Definition M (A : Type) : Type := Machine -> outcome A * Machine.

#[global] Instance M_ret : MRet M := fun A a m => (Returned a, m).

#[global] Instance M_bind : MBind M := fun A B f c m =>
  match c m with
  | (Returned a, m') => f a m'
  | (Raised e, m') => (Raised e, m')
  end.

Definition raise {A : Type} (e : exn) : M A := fun m => (Raised e, m).

Definition lift {A : Type} (o : outcome A) : M A := fun m => (o, m).

(** [try: body  except Exception as e: handler] *)
Definition try_except {A : Type} (body : M A) (handler : exn -> M A) : M A := fun m =>
  match body m with
  | (Returned a, m') => (Returned a, m')
  | (Raised e, m') => handler e m'
  end.

(** [try: body  finally: final]; an exception leaving [final] replaces
    whatever [body] produced. *)
Definition try_finally {A : Type} (body : M A) (final : M unit) : M A := fun m =>
  match body m with
  | (r, m') =>
      match final m' with
      | (Returned _, m'') => (r, m'')
      | (Raised e, m'') => (Raised e, m'')
      end
  end.

Definition get_vars : M Locals := fun m => (Returned (vars m), m).

Definition set_vars (f : Locals -> Locals) : M unit := fun m =>
  (Returned tt, {| vars := f (vars m); world := world m |}).

Definition get_world : M World := fun m => (Returned (world m), m).

Definition set_world (f : World -> World) : M unit := fun m =>
  (Returned tt, {| vars := vars m; world := f (world m) |}).

Definition emit (ev : Event) : M unit :=
  set_world (fun w => {| fs := fs w; gcs := gcs w; trace := trace w ++ [ev] |}).

Definition logging (level : LogLevel) (msg : string) : M unit := emit (Log level msg).

Definition raise_if (fault : option exn) : M unit :=
  match fault with
  | Some e => raise e
  | None => mret tt
  end.

(** ** The calls the handler makes *)

Definition add_file (p : string) (w : World) : World :=
  {| fs := {[p]} ∪ fs w; gcs := gcs w; trace := trace w |}.

Definition del_file (p : string) (w : World) : World :=
  {| fs := fs w ∖ {[p]}; gcs := gcs w; trace := trace w |}.

Definition add_object (n : string) (w : World) : World :=
  {| fs := fs w; gcs := {[n]} ∪ gcs w; trace := trace w |}.

Definition del_object (n : string) (w : World) : World :=
  {| fs := fs w; gcs := gcs w ∖ {[n]}; trace := trace w |}.

(** [with yt_dlp.YoutubeDL(ydl_opts) as ydl: ydl.download([url])] *)
Definition YoutubeDL_download (E : Env) (opts : YdlOpts) (url : string) : M unit :=
  emit (YdlDownload opts url);;
  (if (ydl_download E opts url).1 then set_world (add_file (outtmpl opts)) else mret tt);;
  raise_if (ydl_download E opts url).2.

(** [os.path.exists(path)] *)
Definition os_path_exists (path : string) : M bool :=
  w ← get_world; mret (bool_decide (path ∈ fs w)).

(** [os.remove(path)] *)
Definition os_remove (E : Env) (path : string) : M unit :=
  emit (OsRemove path);;
  raise_if (os_remove_fault E path);;
  w ← get_world;
  if bool_decide (path ∈ fs w) then set_world (del_file path)
  else raise (Exn "FileNotFoundError"
                ("[Errno 2] No such file or directory: '" +:+ path +:+ "'")).

(** [bucket.blob(name)]: only the look-up of the global [bucket] can fail. *)
Definition bucket_blob (E : Env) (name : string) : M string :=
  if bucket_bound E then mret name else raise (NameError "bucket").

(** [blob.upload_from_filename(path)] *)
Definition blob_upload_from_filename (E : Env) (blob path : string) : M unit :=
  emit (UploadFromFilename blob path);;
  (if (upload_from_filename E blob path).1 then set_world (add_object blob) else mret tt);;
  raise_if (upload_from_filename E blob path).2.

(** [blob.exists()] *)
Definition blob_exists (E : Env) (blob : string) : M bool :=
  emit (BlobExists blob);;
  raise_if (blob_exists_fault E blob);;
  w ← get_world; mret (bool_decide (blob ∈ gcs w)).

(** [blob.delete()] *)
Definition blob_delete (E : Env) (blob : string) : M unit :=
  emit (BlobDelete blob);;
  raise_if (blob_delete_fault E blob);;
  w ← get_world;
  if bool_decide (blob ∈ gcs w) then set_world (del_object blob)
  else raise (Exn "NotFound" ("404 No such object: " +:+ blob)).

(** [model.generate_content([prompt, video_part], generation_config=config)] *)
Definition model_generate_content (E : Env) (prompt : string) (video : Part)
    (config : GenerationConfig) : M GenerationResponse :=
  if model_bound E
  then emit (GenerateContent prompt video config);;
       lift (generate_content E prompt video config)
  else raise (NameError "model").

(** [render_template('index.html', **context)]: the page is determined
    by the keyword arguments it is given. *)
Record Rendered : Type := {
  template : string;
  ctx_results : option pyval;
  ctx_error : option string;
  ctx_youtube_url : option string
}.

(** [request.form.get(key)] on the submitted fields, first value first. *)
Fixpoint form_get (key : string) (form : list (string * string)) : option string :=
  match form with
  | [] => None
  | (k, v) :: rest => if bool_decide (k = key) then Some v else form_get key rest
  end.

(** ** The handler [analyze] (app.py, lines 101-200) *)

Definition YDL_FORMAT : string :=
  "bestvideo[ext=mp4][progressive=True][height=720]/best[ext=mp4][progressive=True]/best[ext=mp4]".

Definition DOWNLOAD_NO_FILE : exn :=
  Exn "Exception" "yt-dlp: 다운로드에 실패했습니다 (파일이 생성되지 않음).".

Definition unique_filename (E : Env) : string := uuid4 E +:+ ".mp4".

Definition video_path (E : Env) : string := path_join (gettempdir E) (unique_filename E).

Definition blob_name_of (E : Env) : string := "video-uploads/" +:+ unique_filename E.

Definition gs_uri (E : Env) : string :=
  "gs://" +:+ fmt (GCS_BUCKET_NAME E) +:+ "/" +:+ blob_name_of E.

Definition ydl_opts (E : Env) : YdlOpts :=
  {| format := YDL_FORMAT; outtmpl := video_path E; quiet := false |}.

(** The body of the [try] (lines 114-181). *)
Definition analyze_try (E : Env) (youtube_url : string) : M Rendered :=
  logging INFO ("Analyzing URL: " +:+ youtube_url);;
  set_vars (fun v => {| local_video_path := Some (video_path E);
                        gcs_blob_name := gcs_blob_name v; gcs_uri := gcs_uri v |});;
  logging INFO ("Downloading video with yt-dlp to: " +:+ video_path E);;
  try_except (YoutubeDL_download E (ydl_opts E) youtube_url)
    (fun e =>
       logging ERROR ("yt-dlp download failed: " +:+ exn_str e);;
       raise (Exn "Exception" ("yt-dlp 다운로드 실패: " +:+ exn_str e)));;
  present ← os_path_exists (video_path E);
  (if (present : bool) then mret tt else raise DOWNLOAD_NO_FILE);;
  logging INFO "Download complete.";;
  set_vars (fun v => {| local_video_path := local_video_path v;
                        gcs_blob_name := Some (blob_name_of E); gcs_uri := gcs_uri v |});;
  blob ← bucket_blob E (blob_name_of E);
  logging INFO ("Uploading to GCS: gs://" +:+ fmt (GCS_BUCKET_NAME E) +:+ "/" +:+ blob_name_of E);;
  blob_upload_from_filename E blob (video_path E);;
  set_vars (fun v => {| local_video_path := local_video_path v;
                        gcs_blob_name := gcs_blob_name v; gcs_uri := Some (gs_uri E) |});;
  logging INFO "Upload to GCS complete.";;
  logging INFO ("Calling Gemini API with URI: " +:+ gs_uri E);;
  let video_part := {| uri := gs_uri E; mime_type := "video/mp4" |} in
  video_extraction_response ←
    model_generate_content E video_extraction_prompt video_part
      video_extraction_json_generation_config;
  logging INFO "Gemini analysis complete.";;
  results_text ← lift (text video_extraction_response);
  results_data ← lift (json_loads E results_text);
  results_data ← lift (normalize_results results_data);
  mret {| template := "index.html"; ctx_results := Some results_data;
          ctx_error := None; ctx_youtube_url := Some youtube_url |}.

(** The [except Exception as e] clause (lines 183-185). *)
Definition analyze_except (youtube_url : string) (e : exn) : M Rendered :=
  logging ERROR ("An error occurred: " +:+ exn_str e);;
  mret {| template := "index.html"; ctx_results := None;
          ctx_error := Some (exn_str e); ctx_youtube_url := Some youtube_url |}.

(** The statements of the inner [try] of the [finally] clause (lines 190-198). *)
Definition cleanup_body (E : Env) : M unit :=
  v ← get_vars;
  if_truthy (A := M unit) (local_video_path v)
    (fun path =>
       present ← os_path_exists path;
       if (present : bool)
       then os_remove E path;; logging INFO ("Cleaned up local file: " +:+ path)
       else mret tt)
    (mret tt);;
  if_truthy (A := M unit) (gcs_blob_name v)
    (fun name =>
       blob ← bucket_blob E name;
       present ← blob_exists E blob;
       if (present : bool)
       then blob_delete E blob;; logging INFO ("Cleaned up GCS file: " +:+ name)
       else mret tt)
    (mret tt).

(** The [finally] clause (lines 187-200). *)
Definition cleanup (E : Env) : M unit :=
  try_except (cleanup_body E)
    (fun e => logging WARNING ("Failed to clean up files: " +:+ exn_str e)).

Definition EMPTY_URL_PAGE : Rendered :=
  {| template := "index.html"; ctx_results := None;
     ctx_error := Some "YouTube URL을 입력해주세요."; ctx_youtube_url := None |}.

Definition fresh_locals : Locals :=
  {| local_video_path := None; gcs_blob_name := None; gcs_uri := None |}.

(** The decisions the schema allows. *)
Definition DECISIONS : list string := ["매수"; "매도"; "관망"].

(** The frame of a call: the three variables are [None]. *)
Definition start (w : World) : Machine := {| vars := fresh_locals; world := w |}.

(** The page of the [except] clause for the exception [e]. *)
Definition error_page (url : string) (e : exn) : Rendered :=
  {| template := "index.html"; ctx_results := None;
     ctx_error := Some (exn_str e); ctx_youtube_url := Some url |}.

(** The answer of the one inference call the handler makes. *)
Definition model_response (E : Env) : outcome GenerationResponse :=
  generate_content E video_extraction_prompt
    {| uri := gs_uri E; mime_type := "video/mp4" |}
    video_extraction_json_generation_config.

(** The exception a failing download ends in. *)
Definition download_failure (E : Env) (url : string) : exn :=
  match (ydl_download E (ydl_opts E) url).2 with
  | Some e => Exn "Exception" ("yt-dlp 다운로드 실패: " +:+ exn_str e)
  | None => DOWNLOAD_NO_FILE
  end.

(** The [try] body under its [except] clause. *)
Definition guarded (E : Env) (youtube_url : string) : M Rendered :=
  try_except (analyze_try E youtube_url) (analyze_except youtube_url).

(** The [try] statement as a whole (lines 113-200). *)
Definition analyze_pipeline (E : Env) (youtube_url : string) : M Rendered :=
  try_finally (guarded E youtube_url) (cleanup E).

Definition analyze (E : Env) (form : list (string * string)) (w : World)
  : outcome Rendered * World :=
  if_truthy (form_get "youtube_url" form)
    (fun youtube_url =>
       let r := analyze_pipeline E youtube_url (start w) in
       (r.1, world r.2))
    (Returned EMPTY_URL_PAGE, w).

(** ** Vocabulary of the statements *)

(** Running the block [c] from [m] ends in an outcome and a machine
    that satisfy [Q]. *)
Definition wp {A : Type} (c : M A) (m : Machine) (Q : outcome A → Machine → Prop) : Prop :=
  Q (c m).1 (c m).2.

(** Calls to the bucket or to the model. *)
Definition touches_cloud (ev : Event) : bool :=
  match ev with
  | UploadFromFilename _ _ | GenerateContent _ _ _ | BlobExists _ | BlobDelete _ => true
  | _ => false
  end.

(** The two calls the [finally] clause makes to the bucket. *)
Definition bucket_cleanup_call (ev : Event) : bool :=
  match ev with
  | BlobExists _ | BlobDelete _ => true
  | _ => false
  end.

(** [w'] is [w] after some more events, none of which satisfies [p]. *)
Definition extends_without (p : Event → bool) (w w' : World) : Prop :=
  ∃ t, trace w' = trace w ++ t ∧ forallb (fun ev => negb (p ev)) t = true.

(** ** Sample inputs used to exercise the statements below *)

Module Samples.

Definition w0 : World := {| fs := ∅; gcs := ∅; trace := [] |}.

Definition form0 : list (string * string) := [("youtube_url", "https://youtu.be/abc")].

(** A response that leaves out both optional fields. *)
Definition parsed0 : gmap string pyval :=
  <["stock_name" := PStr "ACME"]>
  (<["investment_thesis" := PStr "실적 개선"]>
  (<["final_decision" := PStr "관망"]>
  (<["decision_reason" := PStr "리스크 대비 기대수익이 낮아 관망함"]> ∅))).

Definition JSONDecodeError : exn :=
  Exn "JSONDecodeError" "Expecting value: line 1 column 1 (char 0)".

(** Every external call succeeds. *)
Definition env_ok : Env := {|
  GCS_BUCKET_NAME := Some "demo-bucket";
  bucket_bound := true;
  model_bound := true;
  gettempdir := "/tmp";
  uuid4 := "0f8fad5b-d9cb-469f-a165-70867728950e";
  ydl_download := fun _ _ => (true, None);
  upload_from_filename := fun _ _ => (true, None);
  generate_content := fun _ _ _ => Returned {| text := Returned "{...}" |};
  json_loads := fun s =>
    if bool_decide (s = "{...}") then Returned (PDict parsed0) else Raised JSONDecodeError;
  os_remove_fault := fun _ => None;
  blob_exists_fault := fun _ => None;
  blob_delete_fault := fun _ => None
|}.

(** As [env_ok], with the given answers of the downloader and of [os.remove]. *)
Definition env_with (download : bool * option exn) (remove_fault : option exn) : Env := {|
  GCS_BUCKET_NAME := GCS_BUCKET_NAME env_ok;
  bucket_bound := bucket_bound env_ok;
  model_bound := model_bound env_ok;
  gettempdir := gettempdir env_ok;
  uuid4 := uuid4 env_ok;
  ydl_download := fun _ _ => download;
  upload_from_filename := upload_from_filename env_ok;
  generate_content := generate_content env_ok;
  json_loads := json_loads env_ok;
  os_remove_fault := fun _ => remove_fault;
  blob_exists_fault := blob_exists_fault env_ok;
  blob_delete_fault := blob_delete_fault env_ok
|}.

(** The page [env_ok] leads to. *)
Definition page_ok : Rendered :=
  {| template := "index.html";
     ctx_results := Some (PDict (normalize_dict parsed0));
     ctx_error := None;
     ctx_youtube_url := Some "https://youtu.be/abc" |}.

Definition PermissionError : exn :=
  Exn "PermissionError" "[Errno 13] Permission denied".

Definition YtDlpDownloadError : exn :=
  Exn "DownloadError" "ERROR: Unable to download webpage".

(** Everything succeeds except [os.remove]. *)
Definition env_remove_fails : Env := env_with (true, None) (Some PermissionError).

(** The downloader raises and leaves no file. *)
Definition env_download_raises : Env := env_with (false, Some YtDlpDownloadError) None.

(** The downloader returns but leaves no file. *)
Definition env_no_file : Env := env_with (false, None) None.

Definition tmp_path : string := "/tmp/0f8fad5b-d9cb-469f-a165-70867728950e.mp4".
Definition blob_key : string := "video-uploads/0f8fad5b-d9cb-469f-a165-70867728950e.mp4".

End Samples.

(** ** The page of [GET /] (app.py, lines 96-99) *)

Definition index : Rendered :=
  {| template := "index.html"; ctx_results := None;
     ctx_error := None; ctx_youtube_url := None |}.

(** ** Module start-up (app.py, lines 23-46) *)

Module Startup.

(** The process environment after [load_dotenv()], and the faults of the
    four client constructors. *)
Record Host : Type := {
  environ : gmap string string;
  vertexai_init_fault : option string -> string -> option exn;
  storage_Client_fault : option string -> option exn;
  client_bucket_fault : option string -> option exn;
  GenerativeModel_fault : string -> option exn
}.

Inductive StartEvent : Type :=
  | StartLog (level : LogLevel) (msg : string)
  | VertexaiInit (project : option string) (location : string)
  | StorageClient (project : option string)
  | ClientBucket (name : option string)
  | LoadModel (model_id : string).

(** The module-level names once the module body has run. *)
Record Globals : Type := {
  PROJECT_ID : option string;
  LOCATION : string;
  GCS_BUCKET_NAME : option string;
  storage_client_bound : bool;
  bucket_bound : bool;
  model_bound : bool
}.

(** [os.environ.get(key)] and [os.environ.get(key, default)] *)
Definition environ_get (H : Host) (key : string) : option string := environ H !! key.

Definition environ_get_default (H : Host) (key default : string) : string :=
  match environ H !! key with
  | Some v => v
  | None => default
  end.

(** [not PROJECT_ID or not GCS_BUCKET_NAME] *)
Definition config_missing (project bucket_name : option string) : bool :=
  if_truthy project (fun _ => if_truthy bucket_name (fun _ => false) true) true.

Definition CONFIG_ERROR : string :=
  "필수 환경변수가 설정되지 않았습니다. PROJECT_ID와 GCS_BUCKET_NAME을 확인하세요.".

(** How far the [try] block got: the names bound, the calls made and
    log lines written, and the exception that ended it, if any. *)
Record Progress : Type := {
  client_ok : bool;
  bucket_ok : bool;
  model_ok : bool;
  events : list StartEvent;
  raised : option exn
}.

(** The body of the start-up [try] (lines 36-43). *)
Definition init_clients (H : Host) (project : option string) (location : string)
    (bucket_name : option string) : Progress :=
  match vertexai_init_fault H project location with
  | Some e => {| client_ok := false; bucket_ok := false; model_ok := false;
                 events := [VertexaiInit project location]; raised := Some e |}
  | None =>
  match storage_Client_fault H project with
  | Some e => {| client_ok := false; bucket_ok := false; model_ok := false;
                 events := [VertexaiInit project location; StorageClient project];
                 raised := Some e |}
  | None =>
  match client_bucket_fault H bucket_name with
  | Some e => {| client_ok := true; bucket_ok := false; model_ok := false;
                 events := [VertexaiInit project location; StorageClient project;
                            ClientBucket bucket_name];
                 raised := Some e |}
  | None =>
  match GenerativeModel_fault H GEMINI_MODEL_ID with
  | Some e => {| client_ok := true; bucket_ok := true; model_ok := false;
                 events := [VertexaiInit project location; StorageClient project;
                            ClientBucket bucket_name; LoadModel GEMINI_MODEL_ID];
                 raised := Some e |}
  | None => {| client_ok := true; bucket_ok := true; model_ok := true;
               events := [VertexaiInit project location; StorageClient project;
                          ClientBucket bucket_name; LoadModel GEMINI_MODEL_ID;
                          StartLog INFO ("GCS Bucket '" +:+ fmt bucket_name +:+
                                         "' 연결 및 모델 로드 완료.")];
               raised := None |}
  end end end end.

(** The [except Exception as e] clause of the start-up [try] (lines 45-46). *)
Definition init_except (e : exn) : list StartEvent :=
  [StartLog ERROR ("GCP 클라이언트 초기화 실패: " +:+ exn_str e)].

(** Lines 23-46: the globals the module ends up with and what it did. *)
Definition startup (H : Host) : Globals * list StartEvent :=
  let project := environ_get H "PROJECT_ID" in
  let location := environ_get_default H "GOOGLE_CLOUD_REGION" "us-central1" in
  let bucket_name := environ_get H "GCS_BUCKET_NAME" in
  let check := if config_missing project bucket_name
               then [StartLog ERROR CONFIG_ERROR] else [] in
  let p := init_clients H project location bucket_name in
  ({| PROJECT_ID := project; LOCATION := location; GCS_BUCKET_NAME := bucket_name;
      storage_client_bound := client_ok p; bucket_bound := bucket_ok p;
      model_bound := model_ok p |},
   check ++ events p ++ match raised p with
                        | Some e => init_except e
                        | None => []
                        end).

Definition is_call (ev : StartEvent) : bool :=
  match ev with
  | StartLog _ _ => false
  | _ => true
  end.

End Startup.

(** The handler runs in a process whose module body left the globals [g]. *)
Definition serves (g : Startup.Globals) (E : Env) : Prop :=
  GCS_BUCKET_NAME E = Startup.GCS_BUCKET_NAME g ∧
  bucket_bound E = Startup.bucket_bound g ∧
  model_bound E = Startup.model_bound g.

(** ** Further vocabulary *)

(** The three calls of the pipeline proper. *)
Definition pipeline_call (ev : Event) : bool :=
  match ev with
  | YdlDownload _ _ | UploadFromFilename _ _ | GenerateContent _ _ _ => true
  | _ => false
  end.

(** The pipeline calls of a run that gets through, in order. *)
Definition calls_made (E : Env) (url : string) : list Event :=
  [YdlDownload (ydl_opts E) url;
   UploadFromFilename (blob_name_of E) (video_path E);
   GenerateContent video_extraction_prompt
     {| uri := gs_uri E; mime_type := "video/mp4" |}
     video_extraction_json_generation_config].

(** Values that are not JSON objects. *)
Definition is_mapping (v : pyval) : bool :=
  match v with
  | PDict _ => true
  | _ => false
  end.

Definition is_scalar (v : pyval) : bool :=
  match v with
  | PNone | PBool _ | PInt _ | PFloat _ => true
  | _ => false
  end.

(** [v.get(k)] where [v] is a mapping; nothing otherwise. *)
Definition field (k : string) (v : pyval) : option pyval :=
  match v with
  | PDict m => m !! k
  | _ => None
  end.

(** The defaults as a mapping of their own. *)
Definition DEFAULTS : gmap string pyval :=
  <["mentioned_risk" := DEFAULT_MENTIONED_RISK]>
    (<["credibility_score" := DEFAULT_CREDIBILITY_SCORE]> ∅).

Module MoreSamples.

Definition host_ok : Startup.Host := {|
  Startup.environ :=
    <["PROJECT_ID" := "demo-project"]> (<["GCS_BUCKET_NAME" := "demo-bucket"]> ∅);
  Startup.vertexai_init_fault := fun _ _ => None;
  Startup.storage_Client_fault := fun _ => None;
  Startup.client_bucket_fault := fun _ => None;
  Startup.GenerativeModel_fault := fun _ => None
|}.

Definition DefaultCredentialsError : exn :=
  Exn "DefaultCredentialsError" "Your default credentials were not found.".

(** No configuration at all, and no credentials for the storage client. *)
Definition host_bare : Startup.Host := {|
  Startup.environ := ∅;
  Startup.vertexai_init_fault := fun _ _ => None;
  Startup.storage_Client_fault := fun _ => Some DefaultCredentialsError;
  Startup.client_bucket_fault := fun _ => None;
  Startup.GenerativeModel_fault := fun _ => None
|}.

(** As [Samples.env_ok], in a process whose start-up stopped at the
    storage client. *)
Definition env_bare : Env := {|
  GCS_BUCKET_NAME := None;
  bucket_bound := false;
  model_bound := false;
  gettempdir := gettempdir Samples.env_ok;
  uuid4 := uuid4 Samples.env_ok;
  ydl_download := ydl_download Samples.env_ok;
  upload_from_filename := upload_from_filename Samples.env_ok;
  generate_content := generate_content Samples.env_ok;
  json_loads := json_loads Samples.env_ok;
  os_remove_fault := os_remove_fault Samples.env_ok;
  blob_exists_fault := blob_exists_fault Samples.env_ok;
  blob_delete_fault := blob_delete_fault Samples.env_ok
|}.

Definition ServiceUnavailable : exn :=
  Exn "ServiceUnavailable" "503 Service Unavailable".

(** As [Samples.env_ok], with an upload that raises. *)
Definition env_upload_raises : Env := {|
  GCS_BUCKET_NAME := GCS_BUCKET_NAME Samples.env_ok;
  bucket_bound := true;
  model_bound := true;
  gettempdir := gettempdir Samples.env_ok;
  uuid4 := uuid4 Samples.env_ok;
  ydl_download := ydl_download Samples.env_ok;
  upload_from_filename := fun _ _ => (false, Some ServiceUnavailable);
  generate_content := generate_content Samples.env_ok;
  json_loads := json_loads Samples.env_ok;
  os_remove_fault := os_remove_fault Samples.env_ok;
  blob_exists_fault := blob_exists_fault Samples.env_ok;
  blob_delete_fault := blob_delete_fault Samples.env_ok
|}.

(** As [Samples.env_ok], with a model whose text is the JSON [null]. *)
Definition env_null_response : Env := {|
  GCS_BUCKET_NAME := GCS_BUCKET_NAME Samples.env_ok;
  bucket_bound := true;
  model_bound := true;
  gettempdir := gettempdir Samples.env_ok;
  uuid4 := uuid4 Samples.env_ok;
  ydl_download := ydl_download Samples.env_ok;
  upload_from_filename := upload_from_filename Samples.env_ok;
  generate_content := fun _ _ _ => Returned {| text := Returned "null" |};
  json_loads := fun s =>
    if bool_decide (s = "null") then Returned PNone else Raised Samples.JSONDecodeError;
  os_remove_fault := os_remove_fault Samples.env_ok;
  blob_exists_fault := blob_exists_fault Samples.env_ok;
  blob_delete_fault := blob_delete_fault Samples.env_ok
|}.

(** A decoded answer whose decision is outside the schema's enumeration. *)
Definition parsed_hold : gmap string pyval :=
  <["stock_name" := PStr "ACME"]>
  (<["investment_thesis" := PStr "실적 개선"]>
  (<["final_decision" := PStr "hold"]>
  (<["decision_reason" := PStr "wait for the next report"]> ∅))).

(** As [Samples.env_ok], with a model that answers [parsed_hold]. *)
Definition env_hold : Env := {|
  GCS_BUCKET_NAME := GCS_BUCKET_NAME Samples.env_ok;
  bucket_bound := true;
  model_bound := true;
  gettempdir := gettempdir Samples.env_ok;
  uuid4 := uuid4 Samples.env_ok;
  ydl_download := ydl_download Samples.env_ok;
  upload_from_filename := upload_from_filename Samples.env_ok;
  generate_content := fun _ _ _ => Returned {| text := Returned "{hold}" |};
  json_loads := fun s =>
    if bool_decide (s = "{hold}") then Returned (PDict parsed_hold)
    else Raised Samples.JSONDecodeError;
  os_remove_fault := os_remove_fault Samples.env_ok;
  blob_exists_fault := blob_exists_fault Samples.env_ok;
  blob_delete_fault := blob_delete_fault Samples.env_ok
|}.

(** A world with someone else's file and object in it. *)
Definition w1 : World :=
  {| fs := {["/tmp/other.mp4"]}; gcs := {["video-uploads/other.mp4"]}; trace := [] |}.

End MoreSamples.

(** * Properties *)

(** ** The defaulting step *)

Section Normalizer.

Implicit Types (m : gmap string pyval) (k : string) (v d : pyval).

Lemma default_field_dict k d m :
  default_field k d (PDict m) = Returned (PDict (default_key k d m)).
Proof.
  unfold default_field, default_key, contains, setitem.
  by destruct (bool_decide (is_Some (m !! k))).
Qed.

Lemma normalize_results_dict m :
  normalize_results (PDict m) = Returned (PDict (normalize_dict m)).
Proof.
  unfold normalize_results, normalize_dict.
  by rewrite !default_field_dict.
Qed.

Lemma default_key_lookup k d m j :
  default_key k d m !! j =
    if decide (k = j) then Some (default d (m !! k)) else m !! j.
Proof.
  unfold default_key. case_bool_decide as Hk.
  - destruct Hk as [x Hx]. case_decide; subst; by rewrite ?Hx.
  - apply eq_None_not_Some in Hk. rewrite lookup_insert.
    case_decide; subst; by rewrite ?Hk.
Qed.

Lemma default_key_present k d m :
  is_Some (m !! k) → default_key k d m = m.
Proof. intros H. unfold default_key. by rewrite bool_decide_eq_true_2. Qed.

Lemma default_key_has k d m : is_Some (default_key k d m !! k).
Proof.
  rewrite default_key_lookup, decide_True by done.
  by eexists.
Qed.

Lemma default_key_idemp k d m :
  default_key k d (default_key k d m) = default_key k d m.
Proof. apply default_key_present, default_key_has. Qed.

Lemma default_key_keeps k d m j x :
  m !! j = Some x → default_key k d m !! j = Some x.
Proof.
  intros H. rewrite default_key_lookup.
  case_decide; subst; by rewrite ?H.
Qed.

End Normalizer.

(** C8. The defaulting step is idempotent on mappings: running the two
    defaulting statements on a parsed JSON object succeeds, and running
    them again on the result gives back exactly that result. *)
Theorem normalize_idempotent (m : gmap string pyval) :
  ∃ m' : gmap string pyval,
    normalize_results (PDict m) = Returned (PDict m') ∧
    normalize_results (PDict m') = Returned (PDict m').
Proof.
  exists (normalize_dict m). split; [apply normalize_results_dict|].
  rewrite normalize_results_dict. do 2 f_equal.
  unfold normalize_dict.
  set (m1 := default_key "mentioned_risk" DEFAULT_MENTIONED_RISK m).
  rewrite (default_key_present "mentioned_risk").
  - apply default_key_idemp.
  - destruct (default_key_has "mentioned_risk" DEFAULT_MENTIONED_RISK m) as [x Hx].
    exists x. by apply default_key_keeps.
Qed.

(** C10. The defaulting step leaves every field of the parsed response
    as it was: each key of the input maps to the same value in the
    output, and a key of the output that the input lacks is
    [mentioned_risk] or [credibility_score]. *)
Theorem normalize_frame (m : gmap string pyval) :
  ∃ m' : gmap string pyval,
    normalize_results (PDict m) = Returned (PDict m') ∧
    (∀ k v, m !! k = Some v → m' !! k = Some v) ∧
    (∀ k, m !! k = None → is_Some (m' !! k) →
          k = "mentioned_risk" ∨ k = "credibility_score").
Proof.
  exists (normalize_dict m). split; [apply normalize_results_dict|].
  unfold normalize_dict. split.
  - intros k v H. by do 2 apply default_key_keeps.
  - intros k Hk [x Hx]. revert Hx. rewrite !default_key_lookup.
    destruct (decide ("credibility_score" = k)) as [<-|_]; [by right|].
    destruct (decide ("mentioned_risk" = k)) as [<-|_]; [by left|].
    by rewrite Hk.
Qed.

Lemma normalize_frame_witness :
  ∃ m' : gmap string pyval,
    normalize_results (PDict Samples.parsed0) = Returned (PDict m') ∧
    (∀ k v, Samples.parsed0 !! k = Some v → m' !! k = Some v) ∧
    (∀ k, Samples.parsed0 !! k = None → is_Some (m' !! k) →
          k = "mentioned_risk" ∨ k = "credibility_score").
Proof. exact (normalize_frame Samples.parsed0). Defined.

(** ** Running blocks *)

Section Running.

Context {A B : Type}.
Implicit Types (c : M A) (f : A → M B) (m : Machine).

Lemma bind_run c f m :
  (c ≫= f) m =
    match c m with
    | (Returned a, m') => f a m'
    | (Raised e, m') => (Raised e, m')
    end.
Proof. reflexivity. Qed.

Lemma bind_returned_inv c f m b m' :
  (c ≫= f) m = (Returned b, m') →
  ∃ a m1, c m = (Returned a, m1) ∧ f a m1 = (Returned b, m').
Proof.
  rewrite bind_run. destruct (c m) as [[a|e] m1]; [eauto|discriminate].
Qed.

End Running.

Lemma lift_returned_inv {A : Type} (o : outcome A) m a m' :
  lift o m = (Returned a, m') → o = Returned a ∧ m' = m.
Proof. unfold lift. by intros [= -> ->]. Qed.

Lemma ret_returned_inv {A : Type} (x : A) m a m' :
  mret (M := M) x m = (Returned a, m') → a = x ∧ m' = m.
Proof. by intros [= -> ->]. Qed.

Ltac bind_inv H :=
  let a := fresh "a" in
  let m := fresh "m" in
  let Hc := fresh "Hc" in
  apply bind_returned_inv in H as (a & m & Hc & H); cbv beta zeta in H.

(** ** The failure boundary *)

Lemma logging_run level msg m :
  logging level msg m =
    (Returned tt,
     {| vars := vars m;
        world := {| fs := fs (world m); gcs := gcs (world m);
                    trace := trace (world m) ++ [Log level msg] |} |}).
Proof. reflexivity. Qed.

Lemma analyze_except_run url e m :
  analyze_except url e m =
    (Returned {| template := "index.html"; ctx_results := None;
                 ctx_error := Some (exn_str e); ctx_youtube_url := Some url |},
     (logging ERROR ("An error occurred: " +:+ exn_str e) m).2).
Proof. reflexivity. Qed.

(** The [finally] clause always completes. *)
Lemma cleanup_returns E m : ∃ m', cleanup E m = (Returned tt, m').
Proof.
  unfold cleanup, try_except.
  destruct (cleanup_body E m) as [[[]|e] m1]; [by eexists|].
  rewrite logging_run. by eexists.
Qed.

(** So the pipeline returns what the [try]/[except] produced. *)
Lemma analyze_pipeline_run E url m :
  ∃ m',
    analyze_pipeline E url m = ((guarded E url m).1, m') ∧
    cleanup E (guarded E url m).2 = (Returned tt, m').
Proof.
  unfold analyze_pipeline, try_finally.
  destruct (guarded E url m) as [r m1].
  destruct (cleanup_returns E m1) as [m' Hm']. exists m'.
  by rewrite Hm'.
Qed.

Lemma model_generate_content_returned_inv E prompt video config m resp m' :
  model_generate_content E prompt video config m = (Returned resp, m') →
  generate_content E prompt video config = Returned resp.
Proof.
  unfold model_generate_content. destruct (model_bound E); [|discriminate].
  intros H. bind_inv H. by apply lift_returned_inv in H as [-> _].
Qed.

(** When the [try] body returns, it returns the success page built from
    the decoded and defaulted response of the model. *)
Lemma analyze_try_returned_inv E url m page m' :
  analyze_try E url m = (Returned page, m') →
  ∃ resp results_text parsed results,
    generate_content E video_extraction_prompt
      {| uri := gs_uri E; mime_type := "video/mp4" |}
      video_extraction_json_generation_config = Returned resp ∧
    text resp = Returned results_text ∧
    json_loads E results_text = Returned parsed ∧
    normalize_results parsed = Returned results ∧
    page = {| template := "index.html"; ctx_results := Some results;
              ctx_error := None; ctx_youtube_url := Some url |}.
Proof.
  unfold analyze_try. intros H.
  repeat bind_inv H.
  repeat match goal with
  | Hl : lift _ _ = (Returned _, _) |- _ => apply lift_returned_inv in Hl as [Hl _]
  | Hg : model_generate_content _ _ _ _ _ = _ |- _ =>
      apply model_generate_content_returned_inv in Hg
  end.
  apply ret_returned_inv in H as [-> _].
  eauto 10.
Qed.

(** ** The handler as a whole *)

(** What [analyze] answers once the URL check is passed. *)
Lemma analyze_nonempty E form w url :
  form_get "youtube_url" form = Some url → url ≠ "" →
  (analyze E form w).1 =
    match (analyze_try E url (start w)).1 with
    | Returned page => Returned page
    | Raised e => Returned (error_page url e)
    end.
Proof.
  intros Hget Hurl. unfold analyze, if_truthy. rewrite Hget.
  rewrite bool_decide_eq_false_2 by done. cbn [fst].
  destruct (analyze_pipeline_run E url (start w)) as (m' & -> & _).
  unfold guarded, try_except, start. cbn [fst].
  destruct (analyze_try E url _) as [[page|e] m1]; [done|].
  by rewrite analyze_except_run.
Qed.

Lemma analyze_empty E form w :
  form_get "youtube_url" form = None ∨ form_get "youtube_url" form = Some "" →
  analyze E form w = (Returned EMPTY_URL_PAGE, w).
Proof. unfold analyze, if_truthy. by intros [-> | ->]. Qed.

(** A page with results comes from a [try] body that returned. *)
Lemma analyze_results_inv E form w page results :
  (analyze E form w).1 = Returned page → ctx_results page = Some results →
  ∃ url m',
    form_get "youtube_url" form = Some url ∧ url ≠ "" ∧
    analyze_try E url (start w) = (Returned page, m').
Proof.
  intros Hrun Hres.
  destruct (form_get "youtube_url" form) as [url|] eqn:Hget;
    [destruct (decide (url = "")) as [->|Hurl]|].
  - rewrite analyze_empty in Hrun by auto.
    injection Hrun as <-. discriminate.
  - rewrite (analyze_nonempty _ _ _ url) in Hrun by done.
    destruct (analyze_try E url (start w)) as [[p|e] m1] eqn:Htry; cbn [fst] in Hrun.
    + injection Hrun as ->. eauto.
    + injection Hrun as <-. discriminate.
  - rewrite analyze_empty in Hrun by auto.
    injection Hrun as <-. discriminate.
Qed.

(** C1. Every POST to [/analyze] is answered with a rendered page and no
    exception leaves the handler: the page is [index.html] carrying
    either the results or an error message, and when a stage of the
    pipeline raises [e] the message is [str(e)]. *)
Theorem analyze_always_renders (E : Env) (form : list (string * string)) (w : World) :
  ∃ page : Rendered,
    (analyze E form w).1 = Returned page ∧
    template page = "index.html" ∧
    ((∃ results, ctx_results page = Some results ∧ ctx_error page = None) ∨
     (∃ msg, ctx_error page = Some msg ∧ ctx_results page = None)) ∧
    (∀ url e,
       form_get "youtube_url" form = Some url → url ≠ "" →
       (analyze_try E url (start w)).1 = Raised e →
       page = error_page url e).
Proof.
  destruct (form_get "youtube_url" form) as [url|] eqn:Hget;
    [destruct (decide (url = "")) as [->|Hurl]|].
  - exists EMPTY_URL_PAGE. rewrite analyze_empty by auto.
    split_and!; [done|done|right; by eexists|]. by intros ? ? [= <-].
  - rewrite (analyze_nonempty _ _ _ url) by done.
    destruct (analyze_try E url (start w)) as [[p|e] m1] eqn:Htry; cbn [fst].
    + pose proof Htry as Hinv.
      apply analyze_try_returned_inv in Hinv as (?&?&?&r&_&_&_&_&->).
      eexists. split_and!; [done|done|left; by eexists|].
      intros ? ? [= <-] _. by rewrite Htry.
    + exists (error_page url e).
      split_and!; [done|done|right; by eexists|].
      intros ? ? [= <-] _. rewrite Htry. by intros [= <-].
  - exists EMPTY_URL_PAGE. rewrite analyze_empty by auto.
    split_and!; [done|done|right; by eexists|]. done.
Qed.

(** C3. An empty (or missing) [youtube_url] field is answered with the
    input form carrying the prompt to enter a URL, and the world is left
    exactly as it was: no file, no bucket object, no call and no log line. *)
Theorem analyze_empty_url (E : Env) (form : list (string * string)) (w : World) :
  form_get "youtube_url" form = None ∨ form_get "youtube_url" form = Some "" →
  analyze E form w =
    (Returned {| template := "index.html"; ctx_results := None;
                 ctx_error := Some "YouTube URL을 입력해주세요.";
                 ctx_youtube_url := None |}, w).
Proof. apply analyze_empty. Qed.

Lemma analyze_empty_url_witness :
  analyze Samples.env_ok [("youtube_url", "")] Samples.w0 =
    (Returned {| template := "index.html"; ctx_results := None;
                 ctx_error := Some "YouTube URL을 입력해주세요.";
                 ctx_youtube_url := None |}, Samples.w0).
Proof.
  apply (analyze_empty_url Samples.env_ok [("youtube_url", "")] Samples.w0).
  right. reflexivity.
Defined.

Lemma analyze_always_renders_witness :
  ∃ page : Rendered,
    (analyze (Samples.env_with (false, Some Samples.YtDlpDownloadError) None)
       Samples.form0 Samples.w0).1 = Returned page ∧
    template page = "index.html" ∧
    ((∃ results, ctx_results page = Some results ∧ ctx_error page = None) ∨
     (∃ msg, ctx_error page = Some msg ∧ ctx_results page = None)) ∧
    (∀ url e,
       form_get "youtube_url" Samples.form0 = Some url → url ≠ "" →
       (analyze_try (Samples.env_with (false, Some Samples.YtDlpDownloadError) None)
          url (start Samples.w0)).1 = Raised e →
       page = error_page url e).
Proof.
  exact (analyze_always_renders
           (Samples.env_with (false, Some Samples.YtDlpDownloadError) None)
           Samples.form0 Samples.w0).
Defined.

(** ** What the success page carries *)

(** The results on a page are the decoded text of the model's response
    to the call made with the fixed prompt and generation config, after
    the defaulting step. *)
Lemma analyze_results_origin E form w page results :
  (analyze E form w).1 = Returned page → ctx_results page = Some results →
  ∃ resp results_text parsed,
    generate_content E video_extraction_prompt
      {| uri := gs_uri E; mime_type := "video/mp4" |}
      video_extraction_json_generation_config = Returned resp ∧
    text resp = Returned results_text ∧
    json_loads E results_text = Returned parsed ∧
    normalize_results parsed = Returned results.
Proof.
  intros Hrun Hres.
  destruct (analyze_results_inv _ _ _ _ _ Hrun Hres) as (url & m' & _ & _ & Htry).
  apply analyze_try_returned_inv in Htry as (resp & t & parsed & r & ? & ? & ? & ? & ->).
  injection Hres as <-. eauto 10.
Qed.

(** ** Reasoning about blocks by their outcome *)

Section WP.

Context {A : Type}.
Implicit Types (c : M A) (m : Machine) (Q : outcome A → Machine → Prop).

Lemma wp_elim c m Q r m' : wp c m Q → c m = (r, m') → Q r m'.
Proof. unfold wp. intros H Heq. by rewrite Heq in H. Qed.

Lemma wp_ret (a : A) m Q : Q (Returned a) m → wp (mret a) m Q.
Proof. done. Qed.

Lemma wp_raise e m Q : Q (Raised e) m → wp (raise e) m Q.
Proof. done. Qed.

Lemma wp_lift (o : outcome A) m Q : Q o m → wp (lift o) m Q.
Proof. done. Qed.

Lemma wp_bind {B : Type} (c0 : M B) (f : B → M A) m Q :
  wp c0 m (λ r m', match r with
                   | Returned b => wp (f b) m' Q
                   | Raised e => Q (Raised e) m'
                   end) →
  wp (c0 ≫= f) m Q.
Proof.
  unfold wp. rewrite bind_run. by destruct (c0 m) as [[b|e] m'].
Qed.

Lemma wp_try_except c (handler : exn → M A) m Q :
  wp c m (λ r m', match r with
                  | Returned a => Q (Returned a) m'
                  | Raised e => wp (handler e) m' Q
                  end) →
  wp (try_except c handler) m Q.
Proof.
  unfold wp, try_except. by destruct (c m) as [[a|e] m'].
Qed.

Lemma wp_try_finally c (final : M unit) m Q :
  wp c m (λ r m', wp final m' (λ r' m'',
            match r' with
            | Returned _ => Q r m''
            | Raised e => Q (Raised e) m''
            end)) →
  wp (try_finally c final) m Q.
Proof.
  unfold wp, try_finally. destruct (c m) as [r m']. cbn [fst snd].
  by destruct (final m') as [[[]|e] m''].
Qed.

End WP.

Lemma wp_get_vars m Q : Q (Returned (vars m)) m → wp get_vars m Q.
Proof. done. Qed.

Lemma wp_get_world m Q : Q (Returned (world m)) m → wp get_world m Q.
Proof. done. Qed.

Lemma wp_set_vars f m Q :
  Q (Returned tt) {| vars := f (vars m); world := world m |} → wp (set_vars f) m Q.
Proof. done. Qed.

Lemma wp_set_world f m Q :
  Q (Returned tt) {| vars := vars m; world := f (world m) |} → wp (set_world f) m Q.
Proof. done. Qed.

Lemma wp_emit ev m Q :
  Q (Returned tt)
    {| vars := vars m;
       world := {| fs := fs (world m); gcs := gcs (world m);
                   trace := trace (world m) ++ [ev] |} |} →
  wp (emit ev) m Q.
Proof. done. Qed.

Ltac wp_simpl :=
  cbn [vars world fs gcs trace local_video_path gcs_blob_name gcs_uri
       add_file del_file add_object del_object outtmpl] in *.

(** One step of symbolic execution; branches are taken in program order. *)
Ltac wp_step :=
  lazymatch goal with
  | |- wp (_ ≫= _) _ _ => apply wp_bind
  | |- wp (mret _) _ _ => apply wp_ret
  | |- wp (raise _) _ _ => apply wp_raise
  | |- wp (lift ?o) _ _ => apply wp_lift
  | |- wp (try_except _ _) _ _ => apply wp_try_except
  | |- wp (try_finally _ _) _ _ => apply wp_try_finally
  | |- wp get_vars _ _ => apply wp_get_vars
  | |- wp get_world _ _ => apply wp_get_world
  | |- wp (set_vars _) _ _ => apply wp_set_vars
  | |- wp (set_world _) _ _ => apply wp_set_world
  | |- wp (emit _) _ _ => apply wp_emit
  | |- wp (logging _ _) _ _ => apply wp_emit
  | |- wp (raise_if ?o) _ _ => unfold raise_if; destruct o eqn:?
  | |- wp (if bool_decide ?P then _ else _) _ _ => destruct (bool_decide_reflect P)
  | |- wp (if ?b then _ else _) _ _ => destruct b eqn:?
  | |- wp (if_truthy ?v _ _) _ _ => unfold if_truthy at 1
  | |- wp (match ?v with Some _ => _ | None => _ end) _ _ => destruct v eqn:?
  | |- wp (YoutubeDL_download _ _ _) _ _ => unfold YoutubeDL_download
  | |- wp (os_path_exists _) _ _ => unfold os_path_exists
  | |- wp (os_remove _ _) _ _ => unfold os_remove
  | |- wp (bucket_blob _ _) _ _ => unfold bucket_blob
  | |- wp (blob_upload_from_filename _ _ _) _ _ => unfold blob_upload_from_filename
  | |- wp (blob_exists _ _) _ _ => unfold blob_exists
  | |- wp (blob_delete _ _) _ _ => unfold blob_delete
  | |- wp (model_generate_content _ _ _ _) _ _ => unfold model_generate_content
  | |- wp (cleanup_body _) _ _ => unfold cleanup_body
  | |- wp (cleanup _) _ _ => unfold cleanup
  | |- wp (analyze_except _ _) _ _ => unfold analyze_except
  | |- wp (analyze_try _ _) _ _ => unfold analyze_try
  | |- match ?o with Returned _ => _ | Raised _ => _ end => destruct o eqn:?
  end; cbv beta iota; wp_simpl; simplify_eq.

Ltac wp_run := repeat wp_step.

Local Set Warnings "-clear-no-such-hyp".


(** ** The [finally] clause *)

Lemma wp_eq {A : Type} (c : M A) m r m' :
  wp c m (λ r0 m0, r0 = r ∧ m0 = m') → c m = (r, m').
Proof. unfold wp. destruct (c m). cbn [fst snd]. by intros [-> ->]. Qed.

(** It only deletes, and leaves the variables alone. *)
Lemma cleanup_frame E m :
  wp (cleanup E) m (λ r m',
    r = Returned tt ∧ vars m' = vars m ∧
    fs (world m') ⊆ fs (world m) ∧ gcs (world m') ⊆ gcs (world m)).
Proof. wp_run; (split_and!; [done|done|set_solver|set_solver]). Qed.

(** The local file goes whenever [os.remove] itself does not fail,
    whatever happens on the bucket side. *)
Lemma cleanup_local_deleted E m p :
  local_video_path (vars m) = Some p → p ≠ "" →
  os_remove_fault E p = None →
  wp (cleanup E) m (λ _ m', p ∉ fs (world m')).
Proof. intros Hp Hne Hfault. wp_run; set_solver. Qed.

(** The bucket object goes when none of the deleting calls fails. *)
Lemma cleanup_remote_deleted E m n :
  gcs_blob_name (vars m) = Some n → n ≠ "" →
  (bucket_bound E = false → n ∉ gcs (world m)) →
  (∀ p, local_video_path (vars m) = Some p → os_remove_fault E p = None) →
  blob_exists_fault E n = None →
  blob_delete_fault E n = None →
  wp (cleanup E) m (λ _ m', n ∉ gcs (world m')).
Proof.
  intros Hn Hne Hb Hlocal Hex Hdel. wp_run;
    try (specialize (Hlocal _ eq_refl)); simplify_eq; set_solver.
Qed.

(** With no blob name recorded, the bucket is not contacted. *)
Lemma cleanup_no_blob E m :
  gcs_blob_name (vars m) = None →
  wp (cleanup E) m (λ _ m',
    gcs (world m') = gcs (world m) ∧
    extends_without touches_cloud (world m) (world m')).
Proof.
  intros Hn. unfold extends_without. wp_run;
    (split; [done|]); wp_simpl; rewrite <- ?(assoc_L (++));
    (eexists; split; [try reflexivity; symmetry; apply app_nil_r|reflexivity]).
Qed.

(** When [os.remove] fails, the clause logs the failure and ends there. *)
Lemma cleanup_local_fault E m p e :
  local_video_path (vars m) = Some p → p ≠ "" → p ∈ fs (world m) →
  os_remove_fault E p = Some e →
  cleanup E m =
    (Returned tt,
     {| vars := vars m;
        world := {| fs := fs (world m); gcs := gcs (world m);
                    trace := trace (world m) ++
                      [OsRemove p;
                       Log WARNING ("Failed to clean up files: " +:+ exn_str e)] |} |}).
Proof.
  intros Hp Hne Hin Hfault. apply wp_eq. wp_run; try done.
  split; [done|]. by rewrite <- (assoc_L (++)).
Qed.

(** Any failure inside the clause ends in one warning line. *)
Lemma cleanup_logs_failure E m e m1 :
  cleanup_body E m = (Raised e, m1) →
  cleanup E m =
    (Returned tt,
     {| vars := vars m1;
        world := {| fs := fs (world m1); gcs := gcs (world m1);
                    trace := trace (world m1) ++
                      [Log WARNING ("Failed to clean up files: " +:+ exn_str e)] |} |}).
Proof. intros H. unfold cleanup, try_except. by rewrite H. Qed.

(** ** The [try] body and its [except] clause *)

Lemma append_empty_r (a b : string) : a +:+ b = "" → b = "".
Proof. destruct a; [done|discriminate]. Qed.

Lemma video_path_nonempty E : video_path E ≠ "".
Proof.
  unfold video_path, path_join, unique_filename.
  destruct (String.prefix "/" _); [|destruct (_ || _)]; intros Hx.
  - apply (append_empty_r (uuid4 E)) in Hx. discriminate Hx.
  - apply (append_empty_r (gettempdir E)) in Hx.
    apply (append_empty_r (uuid4 E)) in Hx. discriminate Hx.
  - apply (append_empty_r (gettempdir E)) in Hx. discriminate Hx.
Qed.

Lemma blob_name_nonempty E : blob_name_of E ≠ "".
Proof. unfold blob_name_of. discriminate. Qed.

Lemma extends_without_trans p w1 w2 w3 :
  extends_without p w1 w2 → extends_without p w2 w3 → extends_without p w1 w3.
Proof.
  intros (t1 & H1 & F1) (t2 & H2 & F2). exists (t1 ++ t2). split.
  - by rewrite H2, H1, (assoc_L (++)).
  - by rewrite forallb_app, F1, F2.
Qed.

(** Whatever happens, the path is recorded, nothing but the video file
    and the bucket object can have been added, and an object can only
    have been added after its name was recorded. *)
Lemma guarded_footprint E url w :
  wp (guarded E url) (start w) (λ r m1,
    local_video_path (vars m1) = Some (video_path E) ∧
    fs (world m1) ⊆ {[video_path E]} ∪ fs w ∧
    gcs (world m1) ⊆ {[blob_name_of E]} ∪ gcs w ∧
    (gcs_blob_name (vars m1) = Some (blob_name_of E) ∨
     gcs_blob_name (vars m1) = None ∧ gcs (world m1) = gcs w) ∧
    (bucket_bound E = false → gcs (world m1) = gcs w)).
Proof.
  unfold guarded, start, fresh_locals. wp_run.
  all: split_and!; [done|set_solver|set_solver|auto|done].
Qed.

Lemma guarded_download_failure E url w :
  (ydl_download E (ydl_opts E) url).2 ≠ None ∨
  ((ydl_download E (ydl_opts E) url).1 = false ∧ video_path E ∉ fs w) →
  wp (guarded E url) (start w) (λ r m1,
    r = Returned (error_page url (download_failure E url)) ∧
    gcs_blob_name (vars m1) = None ∧
    gcs (world m1) = gcs w ∧
    extends_without touches_cloud w (world m1)).
Proof.
  intros Hfail. unfold guarded, start, fresh_locals, download_failure, extends_without.
  wp_run.
  all: try (destruct Hfail as [?|[? ?]]; [done|set_solver]).
  all: split_and!; [done|done|done|].
  all: rewrite <- ?(assoc_L (++)); eexists; split; reflexivity.
Qed.

(** What the [try] body raises, stage by stage. *)
Lemma analyze_try_download_raises E url w e :
  (ydl_download E (ydl_opts E) url).2 = Some e →
  wp (analyze_try E url) (start w) (λ r _,
    r = Raised (Exn "Exception" ("yt-dlp 다운로드 실패: " +:+ exn_str e))).
Proof. intros H. wp_run; done. Qed.

Lemma analyze_try_no_file E url w :
  (ydl_download E (ydl_opts E) url).2 = None →
  (ydl_download E (ydl_opts E) url).1 = false →
  video_path E ∉ fs w →
  wp (analyze_try E url) (start w) (λ r _, r = Raised DOWNLOAD_NO_FILE).
Proof. intros H1 H2 H3. unfold start. wp_run; done. Qed.

Section LaterStages.

Variables (E : Env) (url : string) (w : World).
Hypothesis download_returns : (ydl_download E (ydl_opts E) url).2 = None.
Hypothesis file_present :
  (ydl_download E (ydl_opts E) url).1 = true ∨ video_path E ∈ fs w.

Lemma analyze_try_bucket_unbound :
  bucket_bound E = false →
  wp (analyze_try E url) (start w) (λ r _, r = Raised (NameError "bucket")).
Proof. intros H. unfold start. wp_run; try done; set_solver. Qed.

Hypothesis bucket_ready : bucket_bound E = true.

Lemma analyze_try_upload_raises e :
  (upload_from_filename E (blob_name_of E) (video_path E)).2 = Some e →
  wp (analyze_try E url) (start w) (λ r _, r = Raised e).
Proof. intros H. unfold start. wp_run; try done; set_solver. Qed.

Hypothesis upload_returns :
  (upload_from_filename E (blob_name_of E) (video_path E)).2 = None.

Lemma analyze_try_model_unbound :
  model_bound E = false →
  wp (analyze_try E url) (start w) (λ r _, r = Raised (NameError "model")).
Proof. intros H. unfold start. wp_run; try done; set_solver. Qed.

Hypothesis model_ready : model_bound E = true.

Lemma analyze_try_later_stage :
  wp (analyze_try E url) (start w) (λ r _,
    r = match model_response E with
        | Raised e => Raised e
        | Returned resp =>
            match text resp with
            | Raised e => Raised e
            | Returned results_text =>
                match json_loads E results_text with
                | Raised e => Raised e
                | Returned parsed =>
                    match normalize_results parsed with
                    | Raised e => Raised e
                    | Returned results =>
                        Returned {| template := "index.html";
                                    ctx_results := Some results;
                                    ctx_error := None;
                                    ctx_youtube_url := Some url |}
                    end
                end
            end
        end).
Proof. unfold start, model_response. wp_run; try done; set_solver. Qed.

End LaterStages.

(** ** The defaults on the page *)

(** C4. When a parsed model response lacks [mentioned_risk], the result
    has the sentinel string there; when it lacks [credibility_score], the
    result has the number 5 there; every other key is as in the response;
    and when download, upload, inference and decoding succeed with that
    response, the page the handler returns carries this defaulted mapping. *)
Theorem analysis_result_defaults (m : gmap string pyval) :
  ∃ m' : gmap string pyval,
    normalize_results (PDict m) = Returned (PDict m') ∧
    (m !! "mentioned_risk" = None →
       m' !! "mentioned_risk" = Some (PStr "언급된 리스크 없음")) ∧
    (m !! "credibility_score" = None →
       m' !! "credibility_score" = Some (PInt 5)) ∧
    (∀ k v, m !! k = Some v → m' !! k = Some v) ∧
    (∀ k, k ≠ "mentioned_risk" → k ≠ "credibility_score" → m' !! k = m !! k) ∧
    (∀ E form w url resp results_text,
       form_get "youtube_url" form = Some url → url ≠ "" →
       (ydl_download E (ydl_opts E) url).2 = None →
       (ydl_download E (ydl_opts E) url).1 = true ∨ video_path E ∈ fs w →
       bucket_bound E = true →
       (upload_from_filename E (blob_name_of E) (video_path E)).2 = None →
       model_bound E = true →
       generate_content E video_extraction_prompt
         {| uri := gs_uri E; mime_type := "video/mp4" |}
         video_extraction_json_generation_config = Returned resp →
       text resp = Returned results_text →
       json_loads E results_text = Returned (PDict m) →
       (analyze E form w).1 =
         Returned {| template := "index.html"; ctx_results := Some (PDict m');
                     ctx_error := None; ctx_youtube_url := Some url |}).
Proof.
  exists (normalize_dict m). split_and!.
  - apply normalize_results_dict.
  - intros H. unfold normalize_dict.
    apply default_key_keeps. rewrite default_key_lookup, decide_True by done.
    by rewrite H.
  - intros H. unfold normalize_dict.
    rewrite default_key_lookup, decide_True by done.
    rewrite default_key_lookup, decide_False by done. by rewrite H.
  - intros k v H. by do 2 apply default_key_keeps.
  - intros k H1 H2. unfold normalize_dict.
    by rewrite !default_key_lookup, !decide_False.
  - intros E form w url resp t Hget Hurl Hd Hfile Hb Hu Hm Hgen Htext Hjson.
    rewrite (analyze_nonempty _ _ _ url) by done.
    pose proof (analyze_try_later_stage E url w Hd Hfile Hb Hu Hm) as Hlater.
    unfold wp, model_response in Hlater. rewrite Hlater, Hgen, Htext, Hjson.
    by rewrite normalize_results_dict.
Qed.

Lemma analysis_result_defaults_witness :
  ∃ m' : gmap string pyval,
    (analyze Samples.env_ok Samples.form0 Samples.w0).1 =
      Returned {| template := "index.html"; ctx_results := Some (PDict m');
                  ctx_error := None; ctx_youtube_url := Some "https://youtu.be/abc" |} ∧
    m' !! "mentioned_risk" = Some (PStr "언급된 리스크 없음") ∧
    m' !! "credibility_score" = Some (PInt 5).
Proof.
  destruct (analysis_result_defaults Samples.parsed0)
    as (m' & _ & Hrisk & Hscore & _ & _ & Hpage).
  exists m'. split_and!.
  - apply (Hpage Samples.env_ok Samples.form0 Samples.w0 "https://youtu.be/abc"
             {| text := Returned "{...}" |} "{...}");
      first [reflexivity | discriminate | by left].
  - apply Hrisk. reflexivity.
  - apply Hscore. reflexivity.
Defined.

(** ** Cleanup on every path *)

Lemma analyze_world E form w url :
  form_get "youtube_url" form = Some url → url ≠ "" →
  ∃ m',
    analyze E form w = ((guarded E url (start w)).1, world m') ∧
    cleanup E (guarded E url (start w)).2 = (Returned tt, m').
Proof.
  intros Hget Hurl. unfold analyze, if_truthy. rewrite Hget.
  rewrite bool_decide_eq_false_2 by done.
  destruct (analyze_pipeline_run E url (start w)) as (m' & -> & Hc).
  by exists m'.
Qed.

(** C2, as the code has it. Past the URL check, at most the video file
    and the bucket object of this request are created. When [os.remove]
    does not fail, no file that was not there before the request is left
    when the handler returns; when [blob.exists] and [blob.delete] do not
    fail either, no bucket object that was not there before is left. *)
Theorem cleanup_reclaims
    (E : Env) (form : list (string * string)) (w : World) (url : string) :
  form_get "youtube_url" form = Some url → url ≠ "" →
  os_remove_fault E (video_path E) = None →
  fs (world (guarded E url (start w)).2) ⊆ {[video_path E]} ∪ fs w ∧
  gcs (world (guarded E url (start w)).2) ⊆ {[blob_name_of E]} ∪ gcs w ∧
  fs (analyze E form w).2 ⊆ fs w ∧
  (blob_exists_fault E (blob_name_of E) = None →
   blob_delete_fault E (blob_name_of E) = None →
   gcs (analyze E form w).2 ⊆ gcs w).
Proof.
  intros Hget Hurl Hrm.
  destruct (analyze_world E form w url Hget Hurl) as (m' & -> & Hc).
  pose proof (guarded_footprint E url w) as (Hpath & Hfs & Hgcs & Hname & Hunbound).
  set (m1 := (guarded E url (start w)).2) in *. cbn [snd].
  pose proof (wp_elim _ _ _ _ _ (cleanup_frame E m1) Hc) as (_ & _ & Hfs' & Hgcs').
  pose proof (wp_elim _ _ _ _ _
    (cleanup_local_deleted E m1 _ Hpath (video_path_nonempty E) Hrm) Hc) as Hgone.
  cbv beta in Hgone.
  split_and!; [done|done|set_solver|].
  intros Hex Hdel.
  destruct Hname as [Hname|[Hname Hsame]]; [|set_solver].
  destruct (bucket_bound E) eqn:Hb; [|specialize (Hunbound eq_refl); set_solver].
  assert (blob_name_of E ∉ gcs (world m')) as Hgone'; [|set_solver].
  refine (wp_elim _ _ _ _ _
    (cleanup_remote_deleted E m1 _ Hname (blob_name_nonempty E) _ _ Hex Hdel) Hc).
  - intros Hb'. congruence.
  - intros p Hp. rewrite Hpath in Hp. by injection Hp as <-.
Qed.

Lemma cleanup_reclaims_witness :
  fs (analyze Samples.env_ok Samples.form0 Samples.w0).2 ⊆ fs Samples.w0 ∧
  gcs (analyze Samples.env_ok Samples.form0 Samples.w0).2 ⊆ gcs Samples.w0.
Proof.
  destruct (cleanup_reclaims Samples.env_ok Samples.form0 Samples.w0
              "https://youtu.be/abc") as (_ & _ & Hfs & Hgcs);
    [reflexivity | discriminate | reflexivity |].
  split; [exact Hfs | apply Hgcs; reflexivity].
Defined.

(** C2, as stated, fails: when [os.remove] raises, the video file and
    the uploaded object are both still there when the handler returns
    its (successful) response. *)
Lemma leak_when_remove_fails :
  (analyze Samples.env_remove_fails Samples.form0 Samples.w0).1
    = Returned Samples.page_ok ∧
  (Samples.tmp_path ∉ fs Samples.w0) ∧
  Samples.tmp_path ∈ fs (analyze Samples.env_remove_fails Samples.form0 Samples.w0).2 ∧
  (Samples.blob_key ∉ gcs Samples.w0) ∧
  Samples.blob_key ∈ gcs (analyze Samples.env_remove_fails Samples.form0 Samples.w0).2.
Proof.
  split_and!.
  - vm_compute. reflexivity.
  - apply not_elem_of_empty.
  - apply (bool_decide_unpack _). vm_compute. exact I.
  - apply not_elem_of_empty.
  - apply (bool_decide_unpack _). vm_compute. exact I.
Qed.

(** ** A failing download *)

(** C7. When the downloader raises, or returns without a file at the
    expected path, the handler answers with the error page for that
    failure; the bucket is unchanged and, from the request to the
    response, no call is made to the bucket or to the model. *)
Theorem download_failure_stops
    (E : Env) (form : list (string * string)) (w : World) (url : string) :
  form_get "youtube_url" form = Some url → url ≠ "" →
  (ydl_download E (ydl_opts E) url).2 ≠ None ∨
  ((ydl_download E (ydl_opts E) url).1 = false ∧ video_path E ∉ fs w) →
  (analyze E form w).1 = Returned (error_page url (download_failure E url)) ∧
  gcs (analyze E form w).2 = gcs w ∧
  extends_without touches_cloud w (analyze E form w).2.
Proof.
  intros Hget Hurl Hfail.
  destruct (analyze_world E form w url Hget Hurl) as (m' & -> & Hc).
  pose proof (guarded_download_failure E url w Hfail) as (Hr & Hname & Hgcs & Hext).
  set (m1 := (guarded E url (start w)).2) in *. cbn [fst snd].
  pose proof (wp_elim _ _ _ _ _ (cleanup_no_blob E m1 Hname) Hc) as [Hgcs' Hext'].
  split_and!; [done|congruence|].
  by apply (extends_without_trans _ _ (world m1)).
Qed.

Lemma download_failure_stops_witness :
  (analyze Samples.env_download_raises Samples.form0 Samples.w0).1 =
    Returned (error_page "https://youtu.be/abc"
      (Exn "Exception" "yt-dlp 다운로드 실패: ERROR: Unable to download webpage")) ∧
  gcs (analyze Samples.env_download_raises Samples.form0 Samples.w0).2 = gcs Samples.w0 ∧
  extends_without touches_cloud Samples.w0
    (analyze Samples.env_download_raises Samples.form0 Samples.w0).2.
Proof.
  apply (download_failure_stops Samples.env_download_raises Samples.form0 Samples.w0
           "https://youtu.be/abc"); [reflexivity | discriminate |].
  left. discriminate.
Defined.

(** ** How failures are raised *)

(** C9, as the code has it. The handler defines no failure kinds. Both
    download failures are raised as the built-in [Exception], told apart
    by their message only; a failing upload, inference call, [.text]
    access or JSON decoding lets the library's own exception through
    unchanged; and every one of them reaches the same [except] clause,
    which renders [str(e)]. *)
Theorem failure_exceptions (E : Env) (url : string) (w : World) :
  let d := ydl_download E (ydl_opts E) url in
  let u := upload_from_filename E (blob_name_of E) (video_path E) in
  let g := generate_content E video_extraction_prompt
             {| uri := gs_uri E; mime_type := "video/mp4" |}
             video_extraction_json_generation_config in
  let raised := (analyze_try E url (start w)).1 in
  (∀ e, d.2 = Some e →
        raised = Raised (Exn "Exception" ("yt-dlp 다운로드 실패: " +:+ exn_str e))) ∧
  (d.2 = None → d.1 = false → video_path E ∉ fs w →
     raised = Raised (Exn "Exception" "yt-dlp: 다운로드에 실패했습니다 (파일이 생성되지 않음).")) ∧
  (d.2 = None → d.1 = true ∨ video_path E ∈ fs w → bucket_bound E = true →
     (∀ e, u.2 = Some e → raised = Raised e) ∧
     (u.2 = None → model_bound E = true →
        (∀ e, g = Raised e → raised = Raised e) ∧
        (∀ resp e, g = Returned resp → text resp = Raised e → raised = Raised e) ∧
        (∀ resp results_text e,
           g = Returned resp → text resp = Returned results_text →
           json_loads E results_text = Raised e → raised = Raised e))) ∧
  (∀ e, raised = Raised e →
        (guarded E url (start w)).1 = Returned (error_page url e)).
Proof.
  cbv zeta. split_and!.
  - intros e He. exact (analyze_try_download_raises E url w e He).
  - intros H1 H2 H3. exact (analyze_try_no_file E url w H1 H2 H3).
  - intros Hd Hfile Hb. split.
    + intros e He. exact (analyze_try_upload_raises E url w Hd Hfile Hb e He).
    + intros Hu Hm.
      pose proof (analyze_try_later_stage E url w Hd Hfile Hb Hu Hm) as Hlater.
      unfold wp, model_response in Hlater. rewrite Hlater.
      split_and!.
      * by intros e ->.
      * by intros resp e -> ->.
      * by intros resp t e -> -> ->.
  - intros e He. unfold guarded, try_except.
    destruct (analyze_try E url (start w)) as [r m1]. cbn [fst] in He. subst r.
    by rewrite analyze_except_run.
Qed.

Lemma failure_exceptions_witness :
  (analyze_try Samples.env_download_raises "https://youtu.be/abc" (start Samples.w0)).1 =
    Raised (Exn "Exception" "yt-dlp 다운로드 실패: ERROR: Unable to download webpage").
Proof.
  destruct (failure_exceptions Samples.env_download_raises "https://youtu.be/abc" Samples.w0)
    as (Hraise & _).
  apply (Hraise Samples.YtDlpDownloadError). reflexivity.
Defined.

(** C9, as stated, fails: yt-dlp's own [DownloadError] is caught and a
    plain [Exception] is raised in its place, and a missing file raises
    a plain [Exception] as well. *)
Lemma download_failure_is_plain_exception :
  (∃ e, (analyze_try Samples.env_download_raises "https://youtu.be/abc"
           (start Samples.w0)).1 = Raised e ∧
        exn_class e = "Exception" ∧ exn_class e ≠ "DownloadError") ∧
  (∃ e, (analyze_try Samples.env_no_file "https://youtu.be/abc"
           (start Samples.w0)).1 = Raised e ∧
        exn_class e = "Exception" ∧ exn_class e ≠ "DownloadError").
Proof.
  split.
  - exists (Exn "Exception" "yt-dlp 다운로드 실패: ERROR: Unable to download webpage").
    split_and!; [vm_compute; reflexivity | reflexivity | discriminate].
  - exists DOWNLOAD_NO_FILE.
    split_and!; [vm_compute; reflexivity | reflexivity | discriminate].
Qed.

(** ** Failures inside the [finally] clause *)

(** C6, as the code has it. The two deletions share one guarded block,
    the local file first. A failure in that block is logged as a warning
    and goes no further: the clause completes and the response is the one
    the [try]/[except] produced. A failure on the bucket side cannot
    undo the local deletion, which has already happened; a failure of
    [os.remove] ends the block, so the bucket is not contacted. *)
Theorem cleanup_best_effort (E : Env) (url : string) (w : World) :
  let m1 := (guarded E url (start w)).2 in
  ∃ m',
    cleanup E m1 = (Returned tt, m') ∧
    analyze_pipeline E url (start w) = ((guarded E url (start w)).1, m') ∧
    (∀ e m2, cleanup_body E m1 = (Raised e, m2) →
       trace (world m') =
         trace (world m2) ++ [Log WARNING ("Failed to clean up files: " +:+ exn_str e)]) ∧
    (os_remove_fault E (video_path E) = None → video_path E ∉ fs (world m')) ∧
    (∀ e, video_path E ∈ fs (world m1) →
          os_remove_fault E (video_path E) = Some e →
          gcs (world m') = gcs (world m1) ∧
          trace (world m') =
            trace (world m1) ++
              [OsRemove (video_path E);
               Log WARNING ("Failed to clean up files: " +:+ exn_str e)]).
Proof.
  cbv zeta.
  destruct (analyze_pipeline_run E url (start w)) as (m' & Hrun & Hc).
  pose proof (guarded_footprint E url w) as (Hpath & _).
  set (m1 := (guarded E url (start w)).2) in *.
  exists m'. split_and!; [done|done| | |].
  - intros e m2 Hbody. rewrite (cleanup_logs_failure _ _ _ _ Hbody) in Hc.
    by injection Hc as <-.
  - intros Hrm.
    exact (wp_elim _ _ _ _ _
      (cleanup_local_deleted E m1 _ Hpath (video_path_nonempty E) Hrm) Hc).
  - intros e Hin Hrm.
    rewrite (cleanup_local_fault E m1 _ e Hpath (video_path_nonempty E) Hin Hrm) in Hc.
    by injection Hc as <-.
Qed.

Lemma cleanup_best_effort_witness :
  ∃ m',
    cleanup Samples.env_remove_fails
      (guarded Samples.env_remove_fails "https://youtu.be/abc" (start Samples.w0)).2
      = (Returned tt, m') ∧
    (analyze_pipeline Samples.env_remove_fails "https://youtu.be/abc" (start Samples.w0)).1
      = Returned Samples.page_ok ∧
    gcs (world m') = {[Samples.blob_key]}.
Proof.
  destruct (cleanup_best_effort Samples.env_remove_fails "https://youtu.be/abc" Samples.w0)
    as (m' & Hc & Hrun & _ & _ & Hskip).
  exists m'. split_and!.
  - exact Hc.
  - rewrite Hrun. vm_compute. reflexivity.
  - destruct (Hskip Samples.PermissionError) as [-> _].
    + apply (bool_decide_unpack _). vm_compute. exact I.
    + reflexivity.
    + vm_compute. reflexivity.
Defined.

(** C6, as stated, fails: with an [os.remove] that raises and a bucket
    that would have answered, the uploaded object is there when cleanup
    starts, the [finally] clause makes no call to the bucket, and the
    object is still there when the handler returns. *)
Lemma remote_cleanup_skipped :
  blob_exists_fault Samples.env_remove_fails Samples.blob_key = None ∧
  blob_delete_fault Samples.env_remove_fails Samples.blob_key = None ∧
  Samples.blob_key ∈
    gcs (world (guarded Samples.env_remove_fails "https://youtu.be/abc"
                  (start Samples.w0)).2) ∧
  forallb (λ ev, negb (bucket_cleanup_call ev))
    (trace (analyze Samples.env_remove_fails Samples.form0 Samples.w0).2) = true ∧
  Samples.blob_key ∈ gcs (analyze Samples.env_remove_fails Samples.form0 Samples.w0).2.
Proof.
  split_and!.
  - reflexivity.
  - reflexivity.
  - apply (bool_decide_unpack _). vm_compute. exact I.
  - vm_compute. reflexivity.
  - apply (bool_decide_unpack _). vm_compute. exact I.
Qed.

(** * Further properties of the code *)

(** ** The defaulting step on arbitrary decoded values *)

(** X1. On a decoded value that is not a JSON object the defaulting
    statements never produce a changed value: they hand the value back
    as it is, or raise [TypeError]. *)
Theorem normalize_non_mapping (v : pyval) :
  is_mapping v = false →
  normalize_results v = Returned v ∨
  ∃ msg, normalize_results v = Raised (TypeError msg).
Proof.
  intros Hv. unfold normalize_results, default_field.
  destruct v as [| | | |s|l|m]; try discriminate; cbn [contains setitem];
    try (right; eexists; reflexivity).
  - destruct (is_substring "mentioned_risk" s); [|right; eexists; reflexivity].
    cbn [contains setitem].
    destruct (is_substring "credibility_score" s); [by left|right; eexists; reflexivity].
  - destruct (existsb _ l); [|right; eexists; reflexivity].
    cbn [contains setitem].
    destruct (existsb _ l); [by left|right; eexists; reflexivity].
Qed.

Lemma normalize_non_mapping_witness :
  normalize_results (PList [PStr "mentioned_risk"]) = Returned (PList [PStr "mentioned_risk"]) ∨
  ∃ msg, normalize_results (PList [PStr "mentioned_risk"]) = Raised (TypeError msg).
Proof. apply normalize_non_mapping. reflexivity. Defined.

Lemma normalize_list (l : list pyval) :
  normalize_results (PList l) =
    if existsb (str_equals "mentioned_risk") l
       && existsb (str_equals "credibility_score") l
    then Returned (PList l)
    else Raised (TypeError "list indices must be integers or slices, not str").
Proof.
  unfold normalize_results, default_field. cbn [contains setitem].
  destruct (existsb (str_equals "mentioned_risk") l); [|done].
  cbn [contains]. by destruct (existsb (str_equals "credibility_score") l).
Qed.

Lemma normalize_str (s : string) :
  normalize_results (PStr s) =
    if is_substring "mentioned_risk" s && is_substring "credibility_score" s
    then Returned (PStr s)
    else Raised (TypeError "'str' object does not support item assignment").
Proof.
  unfold normalize_results, default_field. cbn [contains setitem].
  destruct (is_substring "mentioned_risk" s); [|done].
  cbn [contains]. by destruct (is_substring "credibility_score" s).
Qed.

(** X2. A decoded array passes through untouched exactly when it has
    both key names among its elements, and a decoded string exactly when
    both key names occur in it; otherwise the item assignment raises
    [TypeError], with the message Python gives for a list or a [str]. *)
Theorem normalize_array_or_string :
  (∀ l : list pyval,
     normalize_results (PList l) =
       if existsb (str_equals "mentioned_risk") l
          && existsb (str_equals "credibility_score") l
       then Returned (PList l)
       else Raised (TypeError "list indices must be integers or slices, not str")) ∧
  (∀ s : string,
     normalize_results (PStr s) =
       if is_substring "mentioned_risk" s && is_substring "credibility_score" s
       then Returned (PStr s)
       else Raised (TypeError "'str' object does not support item assignment")).
Proof.
  split.
  - intros l. unfold normalize_results, default_field. cbn [contains setitem].
    destruct (existsb (str_equals "mentioned_risk") l); [|done].
    cbn [contains]. by destruct (existsb (str_equals "credibility_score") l).
  - intros s. unfold normalize_results, default_field. cbn [contains setitem].
    destruct (is_substring "mentioned_risk" s); [|done].
    cbn [contains]. by destruct (is_substring "credibility_score" s).
Qed.

(** X3. Whatever the decoded value, a second run of the defaulting
    statements on a result of theirs returns it unchanged. *)
Theorem renormalize_any_value (v r : pyval) :
  normalize_results v = Returned r → normalize_results r = Returned r.
Proof.
  destruct v as [| | | |s|l|m]; try discriminate.
  - rewrite normalize_str.
    destruct (_ && _) eqn:H; [|discriminate].
    intros [= <-]. by rewrite normalize_str, H.
  - rewrite normalize_list.
    destruct (_ && _) eqn:H; [|discriminate].
    intros [= <-]. by rewrite normalize_list, H.
  - rewrite normalize_results_dict. intros [= <-].
    rewrite normalize_results_dict. do 2 f_equal.
    unfold normalize_dict.
    rewrite (default_key_present "mentioned_risk").
    + apply default_key_idemp.
    + destruct (default_key_has "mentioned_risk" DEFAULT_MENTIONED_RISK m) as [x Hx].
      exists x. by apply default_key_keeps.
Qed.

Lemma renormalize_any_value_witness :
  normalize_results (PDict (normalize_dict Samples.parsed0))
    = Returned (PDict (normalize_dict Samples.parsed0)).
Proof.
  apply (renormalize_any_value (PDict Samples.parsed0)).
  apply normalize_results_dict.
Defined.

(** X4. On a mapping, the defaulting step is the merge of the response
    over the two defaults: the response wins wherever it has a key. *)
Theorem normalize_is_merge (m : gmap string pyval) :
  normalize_results (PDict m) = Returned (PDict (m ∪ DEFAULTS)).
Proof.
  rewrite normalize_results_dict. do 2 f_equal.
  apply map_eq. intros k. unfold normalize_dict, DEFAULTS.
  rewrite !default_key_lookup, lookup_union, !lookup_insert, lookup_empty.
  repeat case_decide; simplify_eq; by destruct (m !! _).
Qed.

(** X5. The defaulting step returns the response itself exactly when
    the response already has both optional keys. *)
Theorem normalize_fixed_point (m : gmap string pyval) :
  normalize_results (PDict m) = Returned (PDict m) ↔
  is_Some (m !! "mentioned_risk") ∧ is_Some (m !! "credibility_score").
Proof.
  rewrite normalize_results_dict. split.
  - intros [= H]. split.
    + rewrite <- H. unfold normalize_dict.
      destruct (default_key_has "mentioned_risk" DEFAULT_MENTIONED_RISK m) as [x Hx].
      exists x. by apply default_key_keeps.
    + rewrite <- H. apply default_key_has.
  - intros [H1 H2]. do 2 f_equal. unfold normalize_dict.
    rewrite (default_key_present "mentioned_risk") by done.
    by apply default_key_present.
Qed.

(** ** The order of the pipeline calls *)

Lemma filter_none (p : Event → bool) (t : list Event) :
  forallb (λ ev, negb (p ev)) t = true → List.filter p t = [].
Proof.
  induction t as [|ev t IH]; [done|]. cbn [forallb List.filter].
  intros [Hev Ht]%andb_true_iff. destruct (p ev); [done|]. by apply IH.
Qed.

(** The [finally] clause adds no pipeline call. *)
Lemma cleanup_extends E m :
  wp (cleanup E) m (λ _ m', extends_without pipeline_call (world m) (world m')).
Proof.
  unfold extends_without. wp_run; wp_simpl; rewrite <- ?(assoc_L (++));
    (eexists; split; [try reflexivity; symmetry; apply app_nil_r|reflexivity]).
Qed.

Ltac pick_calls n :=
  exists n; split_and!;
    [lia | lia | reflexivity
    | intros ? ? ? ?; simplify_eq; try done; try discriminate].

Lemma guarded_calls E url w :
  wp (guarded E url) (start w) (λ r m1,
    ∃ t, trace (world m1) = trace w ++ t ∧
    ∃ n, (1 ≤ n)%nat ∧ (n ≤ 3)%nat ∧
         List.filter pipeline_call t = take n (calls_made E url) ∧
         (∀ page results, r = Returned page → ctx_results page = Some results →
                          n = 3%nat)).
Proof.
  unfold guarded, start, fresh_locals, calls_made. wp_run.
  all: wp_simpl; rewrite <- ?(assoc_L (++)); eexists; split; [reflexivity|].
  all: first [pick_calls 1%nat | pick_calls 2%nat | pick_calls 3%nat].
Qed.

(** X6. Every request with a non-empty URL calls the downloader with
    that URL exactly once, then at most once the upload, then at most
    once the model, in this order and with the arguments of the
    source: nothing is retried, no stage is skipped, and a page with
    results is only returned after all three calls. *)
Theorem request_call_sequence
    (E : Env) (form : list (string * string)) (w : World) (url : string) :
  form_get "youtube_url" form = Some url → url ≠ "" →
  ∃ t n,
    trace (analyze E form w).2 = trace w ++ t ∧
    (1 ≤ n)%nat ∧ (n ≤ 3)%nat ∧
    List.filter pipeline_call t = take n (calls_made E url) ∧
    (∀ page results,
       (analyze E form w).1 = Returned page → ctx_results page = Some results →
       n = 3%nat).
Proof.
  intros Hget Hurl.
  destruct (analyze_world E form w url Hget Hurl) as (m' & -> & Hc).
  pose proof (guarded_calls E url w) as (t1 & Ht1 & n & Hn1 & Hn3 & Hcalls & Hok).
  set (m1 := (guarded E url (start w)).2) in *. cbn [fst snd].
  pose proof (wp_elim _ _ _ _ _ (cleanup_extends E m1) Hc) as (t2 & Ht2 & Hnone).
  exists (t1 ++ t2), n. split_and!; [|done|done| |done].
  - by rewrite Ht2, Ht1, (assoc_L (++)).
  - by rewrite List.filter_app, (filter_none _ _ Hnone), app_nil_r.
Qed.

Lemma request_call_sequence_witness :
  ∃ t n,
    trace (analyze Samples.env_ok Samples.form0 Samples.w0).2 = trace Samples.w0 ++ t ∧
    (1 ≤ n)%nat ∧ (n ≤ 3)%nat ∧
    List.filter pipeline_call t
      = take n (calls_made Samples.env_ok "https://youtu.be/abc").
Proof.
  destruct (request_call_sequence Samples.env_ok Samples.form0 Samples.w0
              "https://youtu.be/abc") as (t & n & Ht & H1 & H3 & Hf & _);
    [reflexivity | discriminate |].
  exists t, n. exact (conj Ht (conj H1 (conj H3 Hf))).
Defined.

(** ** What the page and the log say *)

(** X7. Past the URL check the page always echoes the submitted URL,
    whether it carries results or an error; the page of the URL check
    itself carries no URL. *)
Theorem page_echoes_url (E : Env) (form : list (string * string)) (w : World) :
  ∃ page,
    (analyze E form w).1 = Returned page ∧
    ctx_youtube_url page =
      if_truthy (form_get "youtube_url" form) (λ url, Some url) None.
Proof.
  unfold if_truthy.
  destruct (form_get "youtube_url" form) as [url|] eqn:Hget;
    [destruct (bool_decide_reflect (url = "")) as [->|Hurl]|].
  - exists EMPTY_URL_PAGE. by rewrite analyze_empty by auto.
  - rewrite (analyze_nonempty _ _ _ url) by done.
    destruct (analyze_try E url (start w)) as [[p|e] m1] eqn:Htry; cbn [fst].
    + apply analyze_try_returned_inv in Htry as (?&?&?&r&_&_&_&_&->).
      by eexists.
    + by eexists.
  - exists EMPTY_URL_PAGE. by rewrite analyze_empty by auto.
Qed.

Lemma cleanup_trace_grows E m :
  wp (cleanup E) m (λ _ m', ∀ ev, ev ∈ trace (world m) → ev ∈ trace (world m')).
Proof.
  pose proof (cleanup_extends E m) as (t & Ht & _).
  unfold wp. intros ev Hev. rewrite Ht. apply elem_of_app. by left.
Qed.

(** X8. Whenever a request past the URL check is answered with an error
    message, that message was written to the log at level ERROR, as
    [An error occurred: <message>]. *)
Theorem error_is_logged
    (E : Env) (form : list (string * string)) (w : World) (url : string)
    (page : Rendered) (msg : string) :
  form_get "youtube_url" form = Some url → url ≠ "" →
  (analyze E form w).1 = Returned page →
  ctx_error page = Some msg →
  Log ERROR ("An error occurred: " +:+ msg) ∈ trace (analyze E form w).2.
Proof.
  intros Hget Hurl.
  destruct (analyze_world E form w url Hget Hurl) as (m' & -> & Hc).
  cbn [fst snd]. intros Hpage Herr.
  apply (wp_elim _ _ _ _ _ (cleanup_trace_grows E _) Hc).
  revert Hpage. unfold guarded, try_except.
  destruct (analyze_try E url (start w)) as [[p|e] m1] eqn:Htry; cbn [fst snd].
  - apply analyze_try_returned_inv in Htry as (?&?&?&r&_&_&_&_&->).
    intros [= <-]. discriminate.
  - rewrite analyze_except_run. cbn [fst snd]. intros [= <-].
    injection Herr as <-. rewrite logging_run. cbn [snd world trace].
    apply elem_of_app. right. by apply list_elem_of_singleton.
Qed.

Lemma error_is_logged_witness :
  Log ERROR "An error occurred: yt-dlp 다운로드 실패: ERROR: Unable to download webpage"
    ∈ trace (analyze Samples.env_download_raises Samples.form0 Samples.w0).2.
Proof.
  apply (error_is_logged Samples.env_download_raises Samples.form0 Samples.w0
           "https://youtu.be/abc"
           (error_page "https://youtu.be/abc"
              (Exn "Exception" "yt-dlp 다운로드 실패: ERROR: Unable to download webpage")));
    [reflexivity | discriminate | vm_compute; reflexivity | reflexivity].
Defined.

(** ** What a request leaves alone *)

Lemma guarded_keeps E url w :
  wp (guarded E url) (start w) (λ _ m1,
    fs w ⊆ fs (world m1) ∧ gcs w ⊆ gcs (world m1)).
Proof. unfold guarded, start, fresh_locals. wp_run; split; set_solver. Qed.

Ltac keep_other :=
  first [ done
        | apply elem_of_difference; split;
          [done | rewrite elem_of_singleton; congruence] ].

Lemma cleanup_keeps_others E m :
  wp (cleanup E) m (λ _ m',
    (∀ p, local_video_path (vars m) ≠ Some p →
          p ∈ fs (world m) → p ∈ fs (world m')) ∧
    (∀ n, gcs_blob_name (vars m) ≠ Some n →
          n ∈ gcs (world m) → n ∈ gcs (world m'))).
Proof. wp_run; (split; intros x Hx Hin; keep_other). Qed.

(** X9. A request touches no file but its own video file and no bucket
    object but its own: every other path and every other object name is
    on the disk, or in the bucket, after the request exactly when it was
    there before, whatever fails along the way. *)
Theorem others_untouched
    (E : Env) (form : list (string * string)) (w : World) :
  (∀ p, p ≠ video_path E →
        (p ∈ fs (analyze E form w).2 ↔ p ∈ fs w)) ∧
  (∀ n, n ≠ blob_name_of E →
        (n ∈ gcs (analyze E form w).2 ↔ n ∈ gcs w)).
Proof.
  destruct (form_get "youtube_url" form) as [url|] eqn:Hget;
    [destruct (decide (url = "")) as [->|Hurl]|];
    [by rewrite analyze_empty by auto| |by rewrite analyze_empty by auto].
  destruct (analyze_world E form w url Hget Hurl) as (m' & -> & Hc).
  pose proof (guarded_footprint E url w) as (Hpath & Hfs & Hgcs & Hname & _).
  pose proof (guarded_keeps E url w) as (Hfs0 & Hgcs0).
  set (m1 := (guarded E url (start w)).2) in *. cbn [snd].
  pose proof (wp_elim _ _ _ _ _ (cleanup_frame E m1) Hc) as (_ & _ & Hfs' & Hgcs').
  pose proof (wp_elim _ _ _ _ _ (cleanup_keeps_others E m1) Hc) as (Hkf & Hkg).
  cbv beta in Hkf, Hkg. split.
  - intros p Hp. split; [set_solver|].
    intros Hin. apply Hkf; [|set_solver]. rewrite Hpath. congruence.
  - intros n Hn. split; [set_solver|].
    intros Hin. apply Hkg; [|set_solver].
    destruct Hname as [->|[-> _]]; congruence.
Qed.

Lemma others_untouched_witness :
  "/tmp/other.mp4" ∈ fs (analyze Samples.env_remove_fails Samples.form0 MoreSamples.w1).2 ∧
  "video-uploads/other.mp4"
    ∈ gcs (analyze Samples.env_remove_fails Samples.form0 MoreSamples.w1).2.
Proof.
  destruct (others_untouched Samples.env_remove_fails Samples.form0 MoreSamples.w1)
    as [Hf Hg].
  split.
  - apply Hf; [discriminate|]. apply (bool_decide_unpack _). vm_compute. exact I.
  - apply Hg; [discriminate|]. apply (bool_decide_unpack _). vm_compute. exact I.
Defined.

(** ** Requests in a process whose clients are missing *)

Lemma bucket_blob_returned_inv E name m a m' :
  bucket_blob E name m = (Returned a, m') → bucket_bound E = true.
Proof. unfold bucket_blob. by destruct (bucket_bound E). Qed.

Lemma model_generate_content_bound E prompt video config m resp m' :
  model_generate_content E prompt video config m = (Returned resp, m') →
  model_bound E = true.
Proof. unfold model_generate_content. by destruct (model_bound E). Qed.

Lemma analyze_try_returned_bound E url m page m' :
  analyze_try E url m = (Returned page, m') →
  bucket_bound E = true ∧ model_bound E = true.
Proof.
  unfold analyze_try. intros H. repeat bind_inv H.
  split.
  - match goal with
    | Hb : bucket_blob _ _ _ = _ |- _ => by apply bucket_blob_returned_inv in Hb
    end.
  - match goal with
    | Hg : model_generate_content _ _ _ _ _ = _ |- _ =>
        by apply model_generate_content_bound in Hg
    end.
Qed.

Lemma results_need_clients E form w page results :
  (analyze E form w).1 = Returned page → ctx_results page = Some results →
  bucket_bound E = true ∧ model_bound E = true.
Proof.
  intros Hrun Hres.
  destruct (analyze_results_inv _ _ _ _ _ Hrun Hres) as (url & m' & _ & _ & Htry).
  by apply analyze_try_returned_bound in Htry.
Qed.

(** X10. Without both global clients no request ever succeeds: when
    [bucket] or [model] was left unbound at start-up, every page
    [/analyze] returns is without results. *)
Theorem unbound_clients_never_succeed
    (E : Env) (form : list (string * string)) (w : World) (page : Rendered) :
  bucket_bound E = false ∨ model_bound E = false →
  (analyze E form w).1 = Returned page →
  ctx_results page = None.
Proof.
  intros Hunbound Hrun.
  destruct (ctx_results page) as [results|] eqn:Hres; [|done].
  destruct (results_need_clients _ _ _ _ _ Hrun Hres) as [Hb Hm].
  destruct Hunbound; congruence.
Qed.

Lemma unbound_clients_never_succeed_witness :
  ctx_results
    (error_page "https://youtu.be/abc" (NameError "bucket")) = None ∧
  (analyze MoreSamples.env_bare Samples.form0 Samples.w0).1 =
    Returned (error_page "https://youtu.be/abc" (NameError "bucket")).
Proof.
  assert ((analyze MoreSamples.env_bare Samples.form0 Samples.w0).1 =
    Returned (error_page "https://youtu.be/abc" (NameError "bucket"))) as Hrun
    by (vm_compute; reflexivity).
  split; [|exact Hrun].
  apply (unbound_clients_never_succeed MoreSamples.env_bare Samples.form0 Samples.w0);
    [left; reflexivity | exact Hrun].
Defined.

Lemma guarded_bucket_unbound E url w :
  bucket_bound E = false →
  wp (guarded E url) (start w) (λ _ m1,
    gcs (world m1) = gcs w ∧ extends_without touches_cloud w (world m1)).
Proof.
  intros Hb. unfold guarded, start, fresh_locals, extends_without. wp_run.
  all: split; [done|].
  all: wp_simpl; rewrite <- ?(assoc_L (++)); eexists; split; reflexivity.
Qed.

Lemma cleanup_bucket_unbound E m :
  bucket_bound E = false →
  wp (cleanup E) m (λ _ m',
    gcs (world m') = gcs (world m) ∧
    extends_without touches_cloud (world m) (world m')).
Proof.
  intros Hb. unfold extends_without. wp_run;
    (split; [done|]); wp_simpl; rewrite <- ?(assoc_L (++));
    (eexists; split; [try reflexivity; symmetry; apply app_nil_r|reflexivity]).
Qed.

(** X11. When the global [bucket] was left unbound at start-up, a
    request never reaches the cloud: the bucket is unchanged and no
    upload, inference or blob call is made, in the [try] body or in the
    [finally] clause. *)
Theorem unbound_bucket_stays_local
    (E : Env) (form : list (string * string)) (w : World) :
  bucket_bound E = false →
  gcs (analyze E form w).2 = gcs w ∧
  extends_without touches_cloud w (analyze E form w).2.
Proof.
  intros Hb.
  destruct (form_get "youtube_url" form) as [url|] eqn:Hget;
    [destruct (decide (url = "")) as [->|Hurl]|].
  - rewrite analyze_empty by auto. split; [done|]. exists []. by rewrite app_nil_r.
  - destruct (analyze_world E form w url Hget Hurl) as (m' & -> & Hc).
    pose proof (guarded_bucket_unbound E url w Hb) as (Hg & Hext).
    set (m1 := (guarded E url (start w)).2) in *. cbn [snd].
    pose proof (wp_elim _ _ _ _ _ (cleanup_bucket_unbound E m1 Hb) Hc) as [Hg' Hext'].
    split; [congruence|]. by apply (extends_without_trans _ _ (world m1)).
  - rewrite analyze_empty by auto. split; [done|]. exists []. by rewrite app_nil_r.
Qed.

Lemma unbound_bucket_stays_local_witness :
  gcs (analyze MoreSamples.env_bare Samples.form0 MoreSamples.w1).2 = gcs MoreSamples.w1 ∧
  extends_without touches_cloud MoreSamples.w1
    (analyze MoreSamples.env_bare Samples.form0 MoreSamples.w1).2.
Proof.
  apply (unbound_bucket_stays_local MoreSamples.env_bare Samples.form0 MoreSamples.w1).
  reflexivity.
Defined.

(** ** A failing upload, and a response that is not an object *)

Lemma guarded_upload_raises E url w e :
  (ydl_download E (ydl_opts E) url).2 = None →
  (ydl_download E (ydl_opts E) url).1 = true ∨ video_path E ∈ fs w →
  bucket_bound E = true →
  (upload_from_filename E (blob_name_of E) (video_path E)).2 = Some e →
  wp (guarded E url) (start w) (λ r m1,
    r = Returned (error_page url e) ∧
    ∃ t, trace (world m1) = trace w ++ t ∧
         List.filter pipeline_call t = take 2 (calls_made E url)).
Proof.
  intros Hd Hfile Hb Hu. unfold guarded, start, fresh_locals, calls_made. wp_run.
  all: try (exfalso; set_solver).
  all: split; [done|].
  all: wp_simpl; rewrite <- ?(assoc_L (++)); eexists; split; reflexivity.
Qed.

(** X12. When the upload raises, the model is never called: the request
    is answered with the error page carrying the storage client's own
    message, after exactly one download call and one upload call. *)
Theorem upload_failure_stops
    (E : Env) (form : list (string * string)) (w : World) (url : string) (e : exn) :
  form_get "youtube_url" form = Some url → url ≠ "" →
  (ydl_download E (ydl_opts E) url).2 = None →
  (ydl_download E (ydl_opts E) url).1 = true ∨ video_path E ∈ fs w →
  bucket_bound E = true →
  (upload_from_filename E (blob_name_of E) (video_path E)).2 = Some e →
  (analyze E form w).1 = Returned (error_page url e) ∧
  ∃ t, trace (analyze E form w).2 = trace w ++ t ∧
       List.filter pipeline_call t = take 2 (calls_made E url).
Proof.
  intros Hget Hurl Hd Hfile Hb Hu.
  destruct (analyze_world E form w url Hget Hurl) as (m' & -> & Hc).
  pose proof (guarded_upload_raises E url w e Hd Hfile Hb Hu) as (Hr & t1 & Ht1 & Hcalls).
  set (m1 := (guarded E url (start w)).2) in *. cbn [fst snd].
  pose proof (wp_elim _ _ _ _ _ (cleanup_extends E m1) Hc) as (t2 & Ht2 & Hnone).
  split; [done|]. exists (t1 ++ t2). split.
  - by rewrite Ht2, Ht1, (assoc_L (++)).
  - by rewrite List.filter_app, (filter_none _ _ Hnone), app_nil_r.
Qed.

Lemma upload_failure_stops_witness :
  (analyze MoreSamples.env_upload_raises Samples.form0 Samples.w0).1 =
    Returned (error_page "https://youtu.be/abc" MoreSamples.ServiceUnavailable) ∧
  ∃ t, trace (analyze MoreSamples.env_upload_raises Samples.form0 Samples.w0).2
         = trace Samples.w0 ++ t ∧
       List.filter pipeline_call t
         = take 2 (calls_made MoreSamples.env_upload_raises "https://youtu.be/abc").
Proof.
  apply (upload_failure_stops MoreSamples.env_upload_raises Samples.form0 Samples.w0
           "https://youtu.be/abc" MoreSamples.ServiceUnavailable);
    first [reflexivity | discriminate | by left].
Defined.

(** X13. When every stage up to decoding succeeds but the decoded value
    is [null], a boolean or a number, the request is answered with the
    error page whose message is Python's
    [argument of type '<type>' is not iterable]. *)
Theorem scalar_response_page
    (E : Env) (form : list (string * string)) (w : World) (url : string)
    (resp : GenerationResponse) (results_text : string) (v : pyval) :
  form_get "youtube_url" form = Some url → url ≠ "" →
  (ydl_download E (ydl_opts E) url).2 = None →
  (ydl_download E (ydl_opts E) url).1 = true ∨ video_path E ∈ fs w →
  bucket_bound E = true →
  (upload_from_filename E (blob_name_of E) (video_path E)).2 = None →
  model_bound E = true →
  model_response E = Returned resp →
  text resp = Returned results_text →
  json_loads E results_text = Returned v →
  is_scalar v = true →
  (analyze E form w).1 =
    Returned (error_page url
      (TypeError ("argument of type '" +:+ type_name v +:+ "' is not iterable"))).
Proof.
  intros Hget Hurl Hd Hfile Hb Hu Hm Hgen Htext Hjson Hv.
  rewrite (analyze_nonempty _ _ _ url) by done.
  pose proof (analyze_try_later_stage E url w Hd Hfile Hb Hu Hm) as Hlater.
  unfold wp in Hlater. rewrite Hlater, Hgen, Htext, Hjson.
  by destruct v.
Qed.

Lemma scalar_response_page_witness :
  (analyze MoreSamples.env_null_response Samples.form0 Samples.w0).1 =
    Returned (error_page "https://youtu.be/abc"
      (TypeError "argument of type 'NoneType' is not iterable")).
Proof.
  apply (scalar_response_page MoreSamples.env_null_response Samples.form0 Samples.w0
           "https://youtu.be/abc" {| text := Returned "null" |} "null" PNone);
    first [reflexivity | discriminate | by left].
Defined.

(** ** The [finally] clause with nothing to clean *)

(** X14. When no video file is on the disk under the recorded path and
    no blob name was recorded, the [finally] clause does nothing at all:
    no call, no log line, the machine is as it was. *)
Theorem cleanup_nothing_to_do (E : Env) (m : Machine) :
  (∀ p, local_video_path (vars m) = Some p → p ∉ fs (world m)) →
  gcs_blob_name (vars m) = None →
  cleanup E m = (Returned tt, m).
Proof.
  intros Hfile Hname. apply wp_eq. wp_run.
  all: try (exfalso; by eapply Hfile).
  all: by destruct m.
Qed.

Lemma cleanup_nothing_to_do_witness :
  cleanup Samples.env_ok (start Samples.w0) = (Returned tt, start Samples.w0).
Proof.
  apply (cleanup_nothing_to_do Samples.env_ok (start Samples.w0)); [|reflexivity].
  intros p Hp. discriminate Hp.
Defined.

(** ** Module start-up *)

Lemma init_clients_outcome (H : Startup.Host) project location bucket_name :
  let p := Startup.init_clients H project location bucket_name in
  (Startup.model_ok p = true → Startup.bucket_ok p = true) ∧
  (Startup.bucket_ok p = true → Startup.client_ok p = true) ∧
  (Startup.model_ok p = true ↔
     Startup.vertexai_init_fault H project location = None ∧
     Startup.storage_Client_fault H project = None ∧
     Startup.client_bucket_fault H bucket_name = None ∧
     Startup.GenerativeModel_fault H GEMINI_MODEL_ID = None) ∧
  (Startup.model_ok p = true ↔ Startup.raised p = None).
Proof.
  unfold Startup.init_clients.
  destruct (Startup.vertexai_init_fault H project location);
    [cbn; naive_solver|].
  destruct (Startup.storage_Client_fault H project);
    [cbn; naive_solver|].
  destruct (Startup.client_bucket_fault H bucket_name);
    [cbn; naive_solver|].
  destruct (Startup.GenerativeModel_fault H GEMINI_MODEL_ID);
    cbn; naive_solver.
Qed.

(** X15. The start-up block binds its globals in order and stops at
    the first constructor that raises: [model] is bound only if [bucket]
    is, [bucket] only if [storage_client] is, and [model] is bound
    exactly when none of the four constructors raised. *)
Theorem startup_binding_order (H : Startup.Host) :
  let g := (Startup.startup H).1 in
  (Startup.model_bound g = true → Startup.bucket_bound g = true) ∧
  (Startup.bucket_bound g = true → Startup.storage_client_bound g = true) ∧
  (Startup.model_bound g = true ↔
     Startup.vertexai_init_fault H (Startup.PROJECT_ID g) (Startup.LOCATION g) = None ∧
     Startup.storage_Client_fault H (Startup.PROJECT_ID g) = None ∧
     Startup.client_bucket_fault H (Startup.GCS_BUCKET_NAME g) = None ∧
     Startup.GenerativeModel_fault H "gemini-2.5-pro" = None).
Proof.
  cbv zeta. unfold Startup.startup.
  cbn [fst Startup.model_bound Startup.bucket_bound Startup.storage_client_bound
       Startup.PROJECT_ID Startup.LOCATION Startup.GCS_BUCKET_NAME].
  pose proof (init_clients_outcome H (Startup.environ_get H "PROJECT_ID")
    (Startup.environ_get_default H "GOOGLE_CLOUD_REGION" "us-central1")
    (Startup.environ_get H "GCS_BUCKET_NAME")) as (H1 & H2 & H3 & _).
  by split_and!.
Qed.

(** X16. The last log line of the start-up block tells how it went:
    the INFO line naming the bucket when everything was bound, otherwise
    the ERROR line carrying [str(e)] of the exception [e] that stopped
    it, which is the one raised by the first constructor, in program
    order, that raised. *)
Theorem startup_reports_outcome (H : Startup.Host) :
  let g := (Startup.startup H).1 in
  let init := Startup.vertexai_init_fault H (Startup.PROJECT_ID g) (Startup.LOCATION g) in
  let client := Startup.storage_Client_fault H (Startup.PROJECT_ID g) in
  let bucket := Startup.client_bucket_fault H (Startup.GCS_BUCKET_NAME g) in
  let model := Startup.GenerativeModel_fault H "gemini-2.5-pro" in
  (Startup.model_bound g = true ∧
   last (Startup.startup H).2 =
     Some (Startup.StartLog INFO
             ("GCS Bucket '" +:+ fmt (Startup.GCS_BUCKET_NAME g) +:+
              "' 연결 및 모델 로드 완료."))) ∨
  (∃ e, Startup.model_bound g = false ∧
        (init = Some e ∨
         init = None ∧ client = Some e ∨
         init = None ∧ client = None ∧ bucket = Some e ∨
         init = None ∧ client = None ∧ bucket = None ∧ model = Some e) ∧
        last (Startup.startup H).2 =
          Some (Startup.StartLog ERROR ("GCP 클라이언트 초기화 실패: " +:+ exn_str e))).
Proof.
  cbv zeta. unfold Startup.startup, Startup.init_clients, Startup.init_except.
  cbn [fst snd Startup.model_bound Startup.GCS_BUCKET_NAME Startup.PROJECT_ID
       Startup.LOCATION].
  destruct (Startup.vertexai_init_fault H _ _) as [e|];
    [right; exists e; split_and!; [done|auto|]; by rewrite !last_app|].
  destruct (Startup.storage_Client_fault H _) as [e|];
    [right; exists e; split_and!; [done|auto|]; by rewrite !last_app|].
  destruct (Startup.client_bucket_fault H _) as [e|];
    [right; exists e; split_and!; [done|auto 10|]; by rewrite !last_app|].
  destruct (Startup.GenerativeModel_fault H _) as [e|];
    [right; exists e; split_and!; [done|auto 10|]; by rewrite !last_app|].
  left. split; [done|]. cbn [Startup.raised Startup.events Startup.model_ok].
  by rewrite app_nil_r, last_app.
Qed.

Lemma config_missing_spec (project bucket_name : option string) :
  Startup.config_missing project bucket_name = true ↔
  project = None ∨ project = Some "" ∨ bucket_name = None ∨ bucket_name = Some "".
Proof.
  unfold Startup.config_missing, if_truthy.
  destruct project as [p|]; [|naive_solver].
  destruct (bool_decide_reflect (p = "")) as [->|Hp]; [naive_solver|].
  destruct bucket_name as [b|]; [|naive_solver].
  destruct (bool_decide_reflect (b = "")) as [->|Hb]; naive_solver.
Qed.

(** X17. A missing or empty [PROJECT_ID] or [GCS_BUCKET_NAME] is
    reported by an ERROR line before anything else, and only then; it
    does not stop the module: [vertexai.init] is called either way, with
    the project and region as read from the environment. *)
Theorem startup_config_check (H : Startup.Host) :
  let g := (Startup.startup H).1 in
  (head (Startup.startup H).2 = Some (Startup.StartLog ERROR Startup.CONFIG_ERROR) ↔
     Startup.environ H !! "PROJECT_ID" = None ∨
     Startup.environ H !! "PROJECT_ID" = Some "" ∨
     Startup.environ H !! "GCS_BUCKET_NAME" = None ∨
     Startup.environ H !! "GCS_BUCKET_NAME" = Some "") ∧
  Startup.VertexaiInit (Startup.PROJECT_ID g) (Startup.LOCATION g)
    ∈ (Startup.startup H).2.
Proof.
  cbv zeta. unfold Startup.startup.
  cbn [fst snd Startup.PROJECT_ID Startup.LOCATION].
  set (project := Startup.environ_get H "PROJECT_ID").
  set (bucket_name := Startup.environ_get H "GCS_BUCKET_NAME").
  set (location := Startup.environ_get_default H "GOOGLE_CLOUD_REGION" "us-central1").
  assert (∃ rest, Startup.events (Startup.init_clients H project location bucket_name)
                  = Startup.VertexaiInit project location :: rest) as [rest Hev].
  { unfold Startup.init_clients. repeat case_match; by eexists. }
  rewrite Hev. split.
  - pose proof (config_missing_spec project bucket_name) as Hspec.
    unfold project, bucket_name, Startup.environ_get in *. rewrite <- Hspec.
    destruct (Startup.config_missing _ _); by cbn.
  - apply elem_of_app. right. apply elem_of_cons. by left.
Qed.

(** X18. When any of the four constructors raised at start-up, no
    request served by that process ever succeeds: every page [/analyze]
    returns is without results. *)
Theorem failed_startup_fails_requests
    (H : Startup.Host) (E : Env) (form : list (string * string)) (w : World)
    (page : Rendered) :
  let g := (Startup.startup H).1 in
  serves g E →
  Startup.vertexai_init_fault H (Startup.PROJECT_ID g) (Startup.LOCATION g) ≠ None ∨
  Startup.storage_Client_fault H (Startup.PROJECT_ID g) ≠ None ∨
  Startup.client_bucket_fault H (Startup.GCS_BUCKET_NAME g) ≠ None ∨
  Startup.GenerativeModel_fault H "gemini-2.5-pro" ≠ None →
  (analyze E form w).1 = Returned page →
  ctx_results page = None.
Proof.
  cbv zeta. unfold serves. intros (_ & _ & Hmodel) Hfault Hrun.
  destruct (ctx_results page) as [results|] eqn:Hres; [|done].
  destruct (results_need_clients _ _ _ _ _ Hrun Hres) as [_ Hm].
  rewrite Hmodel in Hm. revert Hm Hfault. unfold Startup.startup.
  cbn [fst Startup.model_bound Startup.PROJECT_ID Startup.LOCATION
       Startup.GCS_BUCKET_NAME].
  intros Hm.
  destruct (init_clients_outcome H (Startup.environ_get H "PROJECT_ID")
    (Startup.environ_get_default H "GOOGLE_CLOUD_REGION" "us-central1")
    (Startup.environ_get H "GCS_BUCKET_NAME")) as (_ & _ & [Hiff _] & _).
  destruct (Hiff Hm) as (H1 & H2 & H3 & H4).
  intros [Hf|[Hf|[Hf|Hf]]]; exfalso; by apply Hf.
Qed.

Lemma failed_startup_fails_requests_witness :
  ctx_results (error_page "https://youtu.be/abc" (NameError "bucket")) = None.
Proof.
  apply (failed_startup_fails_requests MoreSamples.host_bare MoreSamples.env_bare
           Samples.form0 Samples.w0).
  - by split_and!.
  - right. left. discriminate.
  - vm_compute. reflexivity.
Defined.


(** ** The decision field *)

Lemma normalize_keeps_final_decision v r :
  normalize_results v = Returned r →
  field "final_decision" r = field "final_decision" v.
Proof.
  destruct v as [| | | |s|l|m]; try discriminate.
  - rewrite normalize_str. destruct (_ && _); [|discriminate]. by intros [= <-].
  - rewrite normalize_list. destruct (_ && _); [|discriminate]. by intros [= <-].
  - rewrite normalize_results_dict. intros [= <-]. cbn [field].
    unfold normalize_dict. by rewrite !default_key_lookup, !decide_False.
Qed.

(** C5, as the code has it. The schema in the generation config of the
    inference call declares [final_decision] as a required string
    restricted to exactly the three decisions. The handler checks
    nothing itself: the [final_decision] of the results it renders is
    whatever the decoded answer of the model to that call has under that
    key, unchanged. *)
Theorem final_decision_passthrough :
  (∀ p, ("final_decision", p) ∈ schema_properties video_extraction_response_schema ↔
        p = Property STRING (Some ["매수"; "매도"; "관망"])) ∧
  "final_decision" ∈ schema_required video_extraction_response_schema ∧
  response_schema video_extraction_json_generation_config
    = video_extraction_response_schema ∧
  ∀ (E : Env) (form : list (string * string)) (w : World)
    (page : Rendered) (results : pyval),
    (analyze E form w).1 = Returned page →
    ctx_results page = Some results →
    ∃ resp results_text parsed,
      generate_content E video_extraction_prompt
        {| uri := gs_uri E; mime_type := "video/mp4" |}
        video_extraction_json_generation_config = Returned resp ∧
      text resp = Returned results_text ∧
      json_loads E results_text = Returned parsed ∧
      field "final_decision" results = field "final_decision" parsed.
Proof.
  split_and!.
  - intros p. cbn [schema_properties video_extraction_response_schema].
    rewrite list_elem_of_In. cbn [In]. intuition congruence.
  - cbn [schema_required video_extraction_response_schema].
    rewrite !elem_of_cons. auto.
  - reflexivity.
  - intros E form w page results Hrun Hres.
    destruct (analyze_results_origin _ _ _ _ _ Hrun Hres)
      as (resp & t & parsed & Hgen & Htext & Hjson & Hnorm).
    exists resp, t, parsed. split_and!; [done|done|done|].
    by apply normalize_keeps_final_decision.
Qed.

Lemma final_decision_passthrough_witness :
  (analyze Samples.env_ok Samples.form0 Samples.w0).1 = Returned Samples.page_ok ∧
  field "final_decision" (PDict (normalize_dict Samples.parsed0)) = Some (PStr "관망").
Proof.
  assert ((analyze Samples.env_ok Samples.form0 Samples.w0).1 =
          Returned Samples.page_ok) as Hrun by (vm_compute; reflexivity).
  split; [exact Hrun|].
  destruct final_decision_passthrough as (_ & _ & _ & Hpass).
  destruct (Hpass Samples.env_ok Samples.form0 Samples.w0 Samples.page_ok
              (PDict (normalize_dict Samples.parsed0)) Hrun eq_refl)
    as (resp & t & parsed & Hgen & Htext & Hjson & Hfield).
  injection Hgen as <-. injection Htext as <-. injection Hjson as <-.
  rewrite Hfield. reflexivity.
Defined.

(** C5, as stated, fails: a model that answers with the decision
    ["hold"], which the schema does not allow, gets that answer rendered
    as the result of a successful request. *)
Lemma unvalidated_final_decision :
  conforms video_extraction_response_schema (PDict MoreSamples.parsed_hold) = false ∧
  ∃ m : gmap string pyval,
    (analyze MoreSamples.env_hold Samples.form0 Samples.w0).1 =
      Returned {| template := "index.html"; ctx_results := Some (PDict m);
                  ctx_error := None;
                  ctx_youtube_url := Some "https://youtu.be/abc" |} ∧
    m !! "final_decision" = Some (PStr "hold") ∧
    "hold" ∉ ["매수"; "매도"; "관망"].
Proof.
  split; [vm_compute; reflexivity|].
  exists (normalize_dict MoreSamples.parsed_hold). split_and!.
  - vm_compute. reflexivity.
  - vm_compute. reflexivity.
  - rewrite !elem_of_cons, elem_of_nil. intros [?|[?|[?|[]]]]; discriminate.
Qed.
